(** * Telescope platform drive (orion-equatorial.ino): model and properties

    A shallow embedding of the Arduino sketch: the time source [myMillis],
    the display routine [dispTime], [setup] and the control [loop].

    Data widths are those of the Arduino Uno the sketch targets:
    [unsigned long] is 32 bits, [int] is 16 bits, [int8_t] is one byte.
    Program variables and the peripherals the sketch drives are gathered in
    one record that every routine threads through explicitly.  What the
    sketch reads from the outside (the button pin, the millisecond clock) is
    an input of the routine that reads it. *)

From Stdlib Require Import ZArith List Bool Lia.
Import ListNotations.
Local Open Scope Z_scope.

(** ** Machine integers *)

Module CInt.

(** [unsigned long]: arithmetic modulo 2^32. *)
Definition ULONG_MOD : Z := 2 ^ 32.
Definition ulong (x : Z) : Z := x mod ULONG_MOD.

(** One byte of memory, as [memcmp] and the display driver see it. *)
Definition byte (x : Z) : Z := x mod 256.

(** [int]: 16 bits, two's complement. *)
Definition int (x : Z) : Z := (x + 32768) mod 65536 - 32768.

End CInt.

(** ** Pins and constants of the sketch *)

Inductive level : Type := LOW | HIGH.

Definition level_eqb (a b : level) : bool :=
  match a, b with
  | LOW, LOW | HIGH, HIGH => true
  | _, _ => false
  end.

Definition STEPPER_DIR_PIN : Z := 2.
Definition STEPPER_STEP_PIN : Z := 3.
Definition STEPPER_ENABLE_PIN : Z := 4.
Definition MODE_BUTTON_PIN : Z := 10.

Definition USEC_PER_USTEP : Z := 100093.
Definition MAX_DURATION_MSEC : Z := 3000000.

Definition ST_INIT : Z := 0.
Definition ST_IDLE : Z := 1.
Definition ST_HOLD : Z := 2.
Definition ST_RUN : Z := 3.

(** Glyphs of the two static states, one byte per digit (XGFEDCBA). *)
Definition HoldDisp : list Z := [118; 92; 56; 94].
Definition IdleDisp : list Z := [6; 94; 56; 121].

(** ** Program state and peripherals *)

Record Machine : Type := mkMachine {
  (* globals *)
  steppingOn : bool;
  debugTimeMult : Z;
  (* static local of dispTime *)
  LastTimeDisp : list Z;
  (* static locals of loop *)
  lastButtonReading : bool;
  stopTime : Z;
  state : Z;
  (* output latches, by pin number *)
  pin : Z -> level;
  (* TM1637 module: brightness, and every buffer handed to setSegments,
     most recent first *)
  brightness : Z;
  segments : list (list Z);
  (* Timer1 period in microseconds, once initialised *)
  timer1 : option Z
}.

Definition set_steppingOn (v : bool) (s : Machine) : Machine :=
  mkMachine v (debugTimeMult s) (LastTimeDisp s) (lastButtonReading s)
            (stopTime s) (state s) (pin s) (brightness s) (segments s) (timer1 s).

Definition set_debugTimeMult (v : Z) (s : Machine) : Machine :=
  mkMachine (steppingOn s) v (LastTimeDisp s) (lastButtonReading s)
            (stopTime s) (state s) (pin s) (brightness s) (segments s) (timer1 s).

Definition set_LastTimeDisp (v : list Z) (s : Machine) : Machine :=
  mkMachine (steppingOn s) (debugTimeMult s) v (lastButtonReading s)
            (stopTime s) (state s) (pin s) (brightness s) (segments s) (timer1 s).

Definition set_lastButtonReading (v : bool) (s : Machine) : Machine :=
  mkMachine (steppingOn s) (debugTimeMult s) (LastTimeDisp s) v
            (stopTime s) (state s) (pin s) (brightness s) (segments s) (timer1 s).

Definition set_stopTime (v : Z) (s : Machine) : Machine :=
  mkMachine (steppingOn s) (debugTimeMult s) (LastTimeDisp s) (lastButtonReading s)
            v (state s) (pin s) (brightness s) (segments s) (timer1 s).

Definition set_state (v : Z) (s : Machine) : Machine :=
  mkMachine (steppingOn s) (debugTimeMult s) (LastTimeDisp s) (lastButtonReading s)
            (stopTime s) v (pin s) (brightness s) (segments s) (timer1 s).

(** [digitalWrite(p, v)] *)
Definition digitalWrite (p : Z) (v : level) (s : Machine) : Machine :=
  mkMachine (steppingOn s) (debugTimeMult s) (LastTimeDisp s) (lastButtonReading s)
            (stopTime s) (state s) (fun q => if q =? p then v else pin s q)
            (brightness s) (segments s) (timer1 s).

(** [tm1637.setBrightness(b)] *)
Definition setBrightness (b : Z) (s : Machine) : Machine :=
  mkMachine (steppingOn s) (debugTimeMult s) (LastTimeDisp s) (lastButtonReading s)
            (stopTime s) (state s) (pin s) b (segments s) (timer1 s).

(** [tm1637.setSegments(buf)]: one physical write of four bytes. *)
Definition setSegments (buf : list Z) (s : Machine) : Machine :=
  mkMachine (steppingOn s) (debugTimeMult s) (LastTimeDisp s) (lastButtonReading s)
            (stopTime s) (state s) (pin s) (brightness s) (buf :: segments s) (timer1 s).

(** [Timer1.initialize(usec)] *)
Definition Timer1_initialize (usec : Z) (s : Machine) : Machine :=
  mkMachine (steppingOn s) (debugTimeMult s) (LastTimeDisp s) (lastButtonReading s)
            (stopTime s) (state s) (pin s) (brightness s) (segments s) (Some usec).

(** Number of physical display writes issued so far. *)
Definition writes (s : Machine) : nat := length (segments s).

(** What the display shows: the last buffer written, if any. *)
Definition shown (s : Machine) : option (list Z) := hd_error (segments s).

(** The motor driver's enable input is active-low. *)
Definition motorEnergized (s : Machine) : bool :=
  level_eqb (pin s STEPPER_ENABLE_PIN) LOW.

(** ** Step pulse *)

(** [takeStepISR()], attached to Timer1: one pulse on the step pin when
    stepping is on ([delayMicroseconds] between the two writes). *)
Definition takeStepISR (s : Machine) : Machine :=
  if steppingOn s then
    let s := digitalWrite STEPPER_STEP_PIN HIGH s in
    digitalWrite STEPPER_STEP_PIN LOW s
  else s.

(** ** Time source *)

(** [myMillis()]: [millis() * debugTimeMult] in [unsigned long]; the [int]
    multiplier is converted to [unsigned long] first.  [millis] is the value
    the hardware clock returns for this call. *)
Definition myMillis (s : Machine) (millis : Z) : Z :=
  CInt.ulong (millis * CInt.ulong (debugTimeMult s)).

(** ** Display routine *)

(** [memcmp(a, b, n)]: sign of the first differing byte among the first [n]. *)
Fixpoint memcmp (a b : list Z) (n : nat) : Z :=
  match n, a, b with
  | S n', x :: a', y :: b' =>
      if x =? y then memcmp a' b' n' else if x <? y then -1 else 1
  | _, _, _ => 0
  end.

(** The digits [dispTime] computes from a duration (lines 160 to 176):
    [minute / 10; minute % 10; second / 10; second % 10], stored as bytes. *)
Definition timeDigits (msecTime : Z) : list Z :=
  let secTime := CInt.ulong (msecTime + 999) / 1000 in
  let second := if msecTime >=? 6000000 then 0 else CInt.int (secTime mod 60) in
  let minute := if msecTime >=? 6000000 then 0 else CInt.int (secTime / 60) in
  [ CInt.byte (Z.quot minute 10); CInt.byte (Z.rem minute 10);
    CInt.byte (Z.quot second 10); CInt.byte (Z.rem second 10) ].

Section Renderer.

(** [tm1637.encodeDigit] belongs to the TM1637Display library, which is not
    part of the sketch: it is a parameter of the model. *)
Variable encodeDigit : Z -> Z.

(** The segment bytes built from the digits (lines 179 to 182); the second
    one carries the separator bit 0x80. *)
Definition encodeTime (TimeDisp : list Z) : list Z :=
  match TimeDisp with
  | [d0; d1; d2; d3] =>
      [ CInt.byte (encodeDigit d0);
        CInt.byte (Z.lor (encodeDigit d1) 128);
        CInt.byte (encodeDigit d2);
        CInt.byte (encodeDigit d3) ]
  | _ => TimeDisp
  end.

(** [dispTime(msecTime)] *)
Definition dispTime (msecTime : Z) (s : Machine) : Machine :=
  let TimeDisp := timeDigits msecTime in
  if negb (memcmp TimeDisp (LastTimeDisp s) 4 =? 0) then
    let TimeDisp := encodeTime TimeDisp in
    set_LastTimeDisp TimeDisp (setSegments TimeDisp s)
  else s.

End Renderer.

(** ** Power-on state and [setup] *)

(** The initialisers of the globals and static locals; statics without an
    initialiser ([stopTime]) start at zero.  Nothing has been written to the
    display yet and the output latches hold their reset value. *)
Definition power_on : Machine :=
  {| steppingOn := false;
     debugTimeMult := 1;
     LastTimeDisp := [0; 0; 0; 0];
     lastButtonReading := false;
     stopTime := 0;
     state := ST_INIT;
     pin := fun _ => LOW;
     brightness := 0;
     segments := [];
     timer1 := None |}.

(** A level read by [digitalRead], as the [int] it returns. *)
Definition level_int (v : level) : Z :=
  match v with LOW => 0 | HIGH => 1 end.

(** [setup()]; [boot] is what [digitalRead(MODE_BUTTON_PIN)] returns. *)
Definition setup (boot : level) (s : Machine) : Machine :=
  let s := if level_int boot =? 0 then set_debugTimeMult 60 s else s in
  let s := digitalWrite STEPPER_STEP_PIN LOW s in
  let s := digitalWrite STEPPER_DIR_PIN LOW s in
  let s := digitalWrite STEPPER_ENABLE_PIN HIGH s in
  let s := setBrightness 0 s in
  Timer1_initialize (Z.quot USEC_PER_USTEP (debugTimeMult s)) s.

(** ** Control loop *)

(** What one pass of [loop] reads from outside: the button pin, and the
    values [millis()] returns on the first and on the second call made
    during the pass (no path makes more than two). *)
Record Input : Type := mkInput {
  button : level;
  millis1 : Z;
  millis2 : Z
}.

(** A level assigned to a [bool] variable. *)
Definition level_bool (v : level) : bool :=
  match v with LOW => false | HIGH => true end.

Section Loop.

Variable encodeDigit : Z -> Z.

(** Lines 216 to 219: the press-edge of this pass. *)
Definition buttonWasPressed (s : Machine) (i : Input) : bool :=
  let buttonReading := level_bool (button i) in
  negb buttonReading && lastButtonReading s.

(** Lines 221 to 247: the state the pass moves to. *)
Definition newState (s : Machine) (i : Input) : Z :=
  if state s =? ST_INIT then ST_IDLE
  else if state s =? ST_IDLE then
    if buttonWasPressed s i then ST_HOLD else state s
  else if state s =? ST_HOLD then
    if buttonWasPressed s i then ST_RUN else state s
  else if state s =? ST_RUN then
    if buttonWasPressed s i || (myMillis s (millis1 i) >=? stopTime s)
    then ST_IDLE else state s
  else state s.

(** Lines 249 to 276: the actions of a transition into [ns]. *)
Definition enter (ns : Z) (i : Input) (s : Machine) : Machine :=
  let s :=
    if ns =? ST_IDLE then
      let s := setSegments IdleDisp s in
      let s := digitalWrite STEPPER_ENABLE_PIN HIGH s in
      set_steppingOn false s
    else if ns =? ST_HOLD then
      let s := setSegments HoldDisp s in
      let s := set_steppingOn false s in
      digitalWrite STEPPER_ENABLE_PIN LOW s
    else if ns =? ST_RUN then
      let s := dispTime encodeDigit (CInt.ulong MAX_DURATION_MSEC) s in
      let s := set_steppingOn true s in
      let s := digitalWrite STEPPER_ENABLE_PIN LOW s in
      set_stopTime
        (CInt.ulong (myMillis s (millis1 i) + CInt.ulong MAX_DURATION_MSEC)) s
    else s in
  set_state ns s.

(** One pass of [loop()]. *)
Definition loop (s : Machine) (i : Input) : Machine :=
  let ns := newState s i in
  let s1 := set_lastButtonReading (level_bool (button i)) s in
  let s2 := if negb (state s1 =? ns) then enter ns i s1 else s1 in
  if state s2 =? ST_RUN then
    dispTime encodeDigit (CInt.ulong (stopTime s2 - myMillis s2 (millis2 i))) s2
  else s2.

(** The machine after [setup] and the passes fed by [ins], in order. *)
Definition run (boot : level) (ins : list Input) : Machine :=
  fold_left loop ins (setup boot power_on).

(** The machine after [n] further passes from [s], pass [k] reading [ins k]. *)
Fixpoint passes (s : Machine) (ins : nat -> Input) (n : nat) : Machine :=
  match n with
  | O => s
  | S k => loop (passes s ins k) (ins k)
  end.

(** The logical time the deadline check of pass [k] reads (its first call of
    [myMillis]); the multiplier is that of [s], which no pass changes. *)
Definition checkTime (s : Machine) (ins : nat -> Input) (k : nat) : Z :=
  myMillis s (millis1 (ins k)).

(** States the sketch can be in between two passes of [loop]; the timer
    interrupt may have fired any number of times. *)
Inductive reachable (boot : level) : Machine -> Prop :=
| reach_setup : reachable boot (setup boot power_on)
| reach_loop s i : reachable boot s -> reachable boot (loop s i)
| reach_isr s : reachable boot s -> reachable boot (takeStepISR s).

End Loop.

(** [digitToSegment] of the TM1637Display library the sketch's header names,
    indexed by [digit & 0x0f]; used to instantiate the encoder parameter. *)
Definition tm1637_encodeDigit (digit : Z) : Z :=
  nth (Z.to_nat (Z.land digit 15))
      [63; 6; 91; 79; 102; 109; 125; 7; 127; 111; 119; 124; 57; 94; 121; 113] 0.

(** ** Vocabulary of the properties *)

(** Rounding a duration up to whole seconds, as the specification words it. *)
Definition ceilSeconds (d : Z) : Z :=
  d / 1000 + (if d mod 1000 =? 0 then 0 else 1).

(** Minutes and seconds of the countdown, as the specification words them. *)
Definition countdownMinute (d : Z) : Z := ceilSeconds d / 60.
Definition countdownSecond (d : Z) : Z := ceilSeconds d mod 60.

Definition decimal_digit (x : Z) : Prop := 0 <= x <= 9.

(** Two decimal digits, high then low, that read as [v]. *)
Definition two_digits (v hi lo : Z) : Prop :=
  decimal_digit hi /\ decimal_digit lo /\ v = 10 * hi + lo.

(** A four-digit pattern reading [minute] then [second], two digits each. *)
Definition shows_MMSS (minute second : Z) (digits : list Z) : Prop :=
  match digits with
  | [m1; m0; s1; s0] => two_digits minute m1 m0 /\ two_digits second s1 s0
  | _ => False
  end.

(** The separator (bit 7 of the second byte) is lit in a segment buffer. *)
Definition separator_on (buf : list Z) : Prop :=
  exists b, nth_error buf 1 = Some b /\ Z.testbit b 7 = true.

(** A buffer as [dispTime] leaves it in [LastTimeDisp] after a write: four
    segment bytes, the second with the separator bit. *)
Definition segment_buffer (buf : list Z) : Prop :=
  exists b0 b1 b2 b3, buf = [b0; b1; b2; b3] /\ 128 <= b1.

(** One step along the cycle Idle, Hold, Run, Idle of the specification. *)
Definition next_in_cycle (st : Z) : Z :=
  if st =? ST_IDLE then ST_HOLD
  else if st =? ST_HOLD then ST_RUN
  else if st =? ST_RUN then ST_IDLE
  else st.

(** The multiplier [setup] selects from the button level at boot. *)
Definition bootMultiplier (boot : level) : Z :=
  match boot with LOW => 60 | HIGH => 1 end.

(** What holds between any two passes of [loop]. *)
Record invariant (boot : level) (s : Machine) : Prop := mkInvariant {
  inv_state :
    state s = ST_INIT \/ state s = ST_IDLE \/ state s = ST_HOLD \/ state s = ST_RUN;
  inv_init : state s = ST_INIT -> lastButtonReading s = false;
  inv_stepping : steppingOn s = true <-> state s = ST_RUN;
  inv_motor : motorEnergized s = true <-> state s = ST_HOLD \/ state s = ST_RUN;
  inv_mult : debugTimeMult s = bootMultiplier boot
}.

(** The seconds a four-digit pattern reads as: minutes times 60 plus seconds. *)
Definition digitsSeconds (digits : list Z) : Z :=
  match digits with
  | [m1; m0; s1; s0] => (10 * m1 + m0) * 60 + (10 * s1 + s0)
  | _ => 0
  end.

(** A buffer the display driver can take: four bytes. *)
Definition display_buffer (buf : list Z) : Prop :=
  length buf = 4%nat /\ Forall (fun b => 0 <= b < 256) buf.

(** What holds of the display variables between any two passes of [loop]. *)
Record display_invariant (s : Machine) : Prop := mkDisplayInvariant {
  dinv_last : LastTimeDisp s = [0; 0; 0; 0] \/ segment_buffer (LastTimeDisp s);
  dinv_run : state s = ST_RUN -> segment_buffer (LastTimeDisp s);
  dinv_log : Forall display_buffer (segments s)
}.

(** What [setup] programs once: step and direction low, brightness 0, the
    timer period. *)
Record peripherals_set (boot : level) (s : Machine) : Prop := mkPeripheralsSet {
  per_step : pin s STEPPER_STEP_PIN = LOW;
  per_dir : pin s STEPPER_DIR_PIN = LOW;
  per_brightness : brightness s = 0;
  per_timer : timer1 s = Some (Z.quot USEC_PER_USTEP (bootMultiplier boot))
}.

(** ** Sample machines and inputs *)

(** Normal mode, one pass done with the button released: Idle. *)
Definition idle_released : Machine :=
  run tm1637_encodeDigit HIGH [mkInput HIGH 0 0].

(** 60x mode, brought to Hold by one press and release. *)
Definition wrap_hold : Machine :=
  run tm1637_encodeDigit LOW
      [mkInput HIGH 0 0; mkInput LOW 10 10; mkInput HIGH 20 20].

(** A press read 71,550,000 ms (about 19.9 hours) after power-up, and the
    pass 10 ms later with the button still down. *)
Definition wrap_press : Input := mkInput LOW 71550000 71550000.
Definition wrap_next : Input := mkInput LOW 71550010 71550010.

(** A press read 100 ms after power-up in the 60x mode, then passes every
    10 ms of raw time (600 ms of logical time) with the button released. *)
Definition debug_press : Input := mkInput LOW 100 100.
Definition debug_ticks (k : nat) : Input :=
  mkInput HIGH (100 + 10 * Z.of_nat (S k)) (100 + 10 * Z.of_nat (S k)).

(** The 60x machine after that press: in Run, deadline at 3,006,000. *)
Definition debug_run : Machine :=
  loop tm1637_encodeDigit wrap_hold debug_press.

(** A pass whose check reads just before that deadline and whose rendering
    reads just after it. *)
Definition debug_straddle : Input := mkInput HIGH 50099 50101.

(** The button held down, pass after pass. *)
Definition held_down (k : nat) : Input := mkInput LOW 0 0.

(** * Properties *)

(** ** Machine integers in range *)

Lemma ULONG_MOD_value : CInt.ULONG_MOD = 4294967296.
Proof. reflexivity. Qed.

(** Linear arithmetic with the modulus of [unsigned long] made explicit. *)
Ltac ulia := rewrite ?ULONG_MOD_value in *; lia.

Lemma ulong_small x : 0 <= x < CInt.ULONG_MOD -> CInt.ulong x = x.
Proof. intros H. unfold CInt.ulong. now apply Z.mod_small. Qed.

Lemma ulong_range x : 0 <= CInt.ulong x < CInt.ULONG_MOD.
Proof. unfold CInt.ulong, CInt.ULONG_MOD. apply Z.mod_pos_bound. lia. Qed.

Lemma byte_small x : 0 <= x < 256 -> CInt.byte x = x.
Proof. intros H. unfold CInt.byte. now apply Z.mod_small. Qed.

Lemma byte_range x : 0 <= CInt.byte x < 256.
Proof. unfold CInt.byte. apply Z.mod_pos_bound. lia. Qed.

Lemma int_small x : -32768 <= x < 32768 -> CInt.int x = x.
Proof. intros H. unfold CInt.int. rewrite Z.mod_small; lia. Qed.

(** A byte with the separator bit or-ed in is at least 0x80. *)
Lemma byte_lor_128 x : 128 <= CInt.byte (Z.lor x 128) < 256.
Proof.
  pose proof (byte_range (Z.lor x 128)) as Hr.
  split; [|lia].
  assert (Hb : Z.testbit (CInt.byte (Z.lor x 128)) 7 = true).
  { unfold CInt.byte. change 256 with (2 ^ 8).
    rewrite Z.mod_pow2_bits_low by lia.
    rewrite Z.lor_spec. change (Z.testbit 128 7) with true.
    apply orb_true_r. }
  apply Z.testbit_true in Hb; [|lia].
  change (2 ^ 7) with 128 in Hb.
  destruct (Z_lt_le_dec (CInt.byte (Z.lor x 128)) 128) as [Hlt|Hge]; [|exact Hge].
  rewrite Z.div_small in Hb by lia. discriminate Hb.
Qed.

(** ** [memcmp] on four-byte buffers *)

Lemma memcmp_refl a n : memcmp a a n = 0.
Proof.
  revert n. induction a as [|x a IH]; intros [|n]; simpl; try reflexivity.
  rewrite Z.eqb_refl. apply IH.
Qed.

Lemma memcmp_cons_neq x y a b n : x <> y -> memcmp (x :: a) (y :: b) (S n) <> 0.
Proof.
  intros Hxy. simpl. destruct (Z.eqb_spec x y) as [E|_]; [contradiction|].
  destruct (x <? y); discriminate.
Qed.

Lemma memcmp_second_neq x0 x1 y0 y1 a b n :
  x1 <> y1 -> memcmp (x0 :: x1 :: a) (y0 :: y1 :: b) (S (S n)) <> 0.
Proof.
  intros H. cbn [memcmp]. destruct (x0 =? y0).
  - now apply memcmp_cons_neq.
  - destruct (x0 <? y0); discriminate.
Qed.

(** ** The digits of a duration *)

Lemma ceilSeconds_round_up d : 0 <= d -> ceilSeconds d = (d + 999) / 1000.
Proof.
  intros Hd. unfold ceilSeconds.
  pose proof (Z.div_mod d 1000 ltac:(lia)) as E.
  pose proof (Z.mod_pos_bound d 1000 ltac:(lia)) as B.
  destruct (Z.eqb_spec (d mod 1000) 0) as [H0|H0].
  - apply Z.div_unique_pos with (r := 999); lia.
  - apply Z.div_unique_pos with (r := d mod 1000 - 1); lia.
Qed.

Lemma ceilSeconds_bounds d : 0 <= d -> 1000 * (ceilSeconds d - 1) < d <= 1000 * ceilSeconds d.
Proof.
  intros Hd. unfold ceilSeconds.
  pose proof (Z.div_mod d 1000 ltac:(lia)) as E.
  pose proof (Z.mod_pos_bound d 1000 ltac:(lia)) as B.
  destruct (Z.eqb_spec (d mod 1000) 0); lia.
Qed.

(** Below the sentinel the digits are those of the rounded-up seconds. *)
Lemma timeDigits_below d :
  0 <= d < 6000000 ->
  timeDigits d =
    [ ceilSeconds d / 60 / 10; (ceilSeconds d / 60) mod 10;
      (ceilSeconds d mod 60) / 10; (ceilSeconds d mod 60) mod 10 ].
Proof.
  intros Hd. rewrite ceilSeconds_round_up by lia.
  unfold timeDigits.
  destruct (Z.geb_spec d 6000000) as [Hge|_]; [lia|].
  rewrite ulong_small by ulia.
  set (c := (d + 999) / 1000).
  assert (Hc : 0 <= c <= 6000).
  { subst c. split.
    - apply Z.div_pos; lia.
    - apply Z.lt_succ_r. apply Z.div_lt_upper_bound; lia. }
  assert (Hm : 0 <= c / 60 <= 100).
  { split; [apply Z.div_pos; lia | apply Z.div_le_upper_bound; lia]. }
  pose proof (Z.mod_pos_bound c 60 ltac:(lia)) as Hs.
  rewrite !int_small by lia.
  rewrite !Z.quot_div_nonneg, !Z.rem_mod_nonneg by lia.
  pose proof (Z.mod_pos_bound (c / 60) 10 ltac:(lia)).
  pose proof (Z.mod_pos_bound (c mod 60) 10 ltac:(lia)).
  assert (0 <= c / 60 / 10 <= 10)
    by (split; [apply Z.div_pos; lia | apply Z.div_le_upper_bound; lia]).
  assert (0 <= c mod 60 / 10 <= 5)
    by (split; [apply Z.div_pos; lia
               | apply Z.lt_succ_r; apply Z.div_lt_upper_bound; lia]).
  rewrite !byte_small by lia. reflexivity.
Qed.

(** At or beyond the sentinel the digits are all zero. *)
Lemma timeDigits_sentinel d : 6000000 <= d -> timeDigits d = [0; 0; 0; 0].
Proof.
  intros Hd. unfold timeDigits.
  destruct (Z.geb_spec d 6000000) as [_|Hlt]; [reflexivity|lia].
Qed.

Lemma timeDigits_zero : timeDigits 0 = [0; 0; 0; 0].
Proof. reflexivity. Qed.

(** Whatever the duration, the second digit is a plain digit (below 0x80). *)
Lemma timeDigits_second_digit d :
  0 <= d < CInt.ULONG_MOD ->
  exists x0 x1 x2 x3, timeDigits d = [x0; x1; x2; x3] /\ 0 <= x1 <= 9.
Proof.
  intros Hd. destruct (Z_lt_le_dec d 6000000) as [Hlt|Hge].
  - rewrite timeDigits_below by lia. do 4 eexists. split; [reflexivity|].
    pose proof (Z.mod_pos_bound (ceilSeconds d / 60) 10 ltac:(lia)). lia.
  - rewrite timeDigits_sentinel by lia. do 4 eexists. split; [reflexivity|lia].
Qed.

(** ** The display routine *)

Section DisplayProperties.

Variable encodeDigit : Z -> Z.

Lemma dispTime_unchanged d s :
  timeDigits d = LastTimeDisp s -> dispTime encodeDigit d s = s.
Proof.
  intros E. unfold dispTime. rewrite <- E, memcmp_refl. reflexivity.
Qed.

Lemma dispTime_changed d s :
  memcmp (timeDigits d) (LastTimeDisp s) 4 <> 0 ->
  dispTime encodeDigit d s =
    set_LastTimeDisp (encodeTime encodeDigit (timeDigits d))
                     (setSegments (encodeTime encodeDigit (timeDigits d)) s).
Proof.
  intros N. unfold dispTime.
  destruct (Z.eqb_spec (memcmp (timeDigits d) (LastTimeDisp s) 4) 0) as [E|_];
    [contradiction|reflexivity].
Qed.

Lemma encodeTime_segment_buffer d :
  0 <= d < CInt.ULONG_MOD -> segment_buffer (encodeTime encodeDigit (timeDigits d)).
Proof.
  intros Hd. destruct (timeDigits_second_digit d Hd) as (x0 & x1 & x2 & x3 & E & _).
  rewrite E. cbn [encodeTime]. do 4 eexists. split; [reflexivity|].
  apply byte_lor_128.
Qed.

(** Raw digits never compare equal to a buffer of segment bytes. *)
Lemma digits_differ_from_segments d buf :
  0 <= d < CInt.ULONG_MOD -> segment_buffer buf -> memcmp (timeDigits d) buf 4 <> 0.
Proof.
  intros Hd (b0 & b1 & b2 & b3 & -> & Hb).
  destruct (timeDigits_second_digit d Hd) as (x0 & x1 & x2 & x3 & -> & Hx).
  apply memcmp_second_neq. lia.
Qed.

(** Once [dispTime] has written, every later call writes again, whatever the
    duration: [LastTimeDisp] then holds segment bytes while the comparison is
    made on raw digits. *)
Lemma dispTime_writes_after_write d s :
  0 <= d < CInt.ULONG_MOD -> segment_buffer (LastTimeDisp s) ->
  writes (dispTime encodeDigit d s) = S (writes s)
  /\ segment_buffer (LastTimeDisp (dispTime encodeDigit d s)).
Proof.
  intros Hd Hs. rewrite dispTime_changed by now apply digits_differ_from_segments.
  split; [reflexivity|]. cbn. now apply encodeTime_segment_buffer.
Qed.

Lemma dispTime_write_leaves_segments d s :
  0 <= d < CInt.ULONG_MOD ->
  writes (dispTime encodeDigit d s) <> writes s ->
  segment_buffer (LastTimeDisp (dispTime encodeDigit d s)).
Proof.
  intros Hd. unfold dispTime.
  destruct (negb (memcmp (timeDigits d) (LastTimeDisp s) 4 =? 0)).
  - intros _. cbn. now apply encodeTime_segment_buffer.
  - intros N. now contradiction N.
Qed.

(** C1, evaluated on the code: two consecutive calls with the same duration
    (one second, digits 00:01 both times) right after boot issue two physical
    display writes, not one; the second call is not suppressed. *)
Theorem dispTime_same_pattern_twice_writes_twice :
  timeDigits 1000 = [0; 0; 0; 1]
  /\ writes (setup HIGH power_on) = 0%nat
  /\ writes (dispTime encodeDigit 1000 (setup HIGH power_on)) = 1%nat
  /\ writes (dispTime encodeDigit 1000
              (dispTime encodeDigit 1000 (setup HIGH power_on))) = 2%nat.
Proof.
  assert (H1 : writes (dispTime encodeDigit 1000 (setup HIGH power_on)) = 1%nat)
    by (vm_compute; reflexivity).
  split; [reflexivity|]. split; [reflexivity|]. split; [exact H1|].
  assert (Hd : 0 <= 1000 < CInt.ULONG_MOD) by ulia.
  destruct (dispTime_writes_after_write 1000
              (dispTime encodeDigit 1000 (setup HIGH power_on)) Hd) as [Hw _].
  - apply dispTime_write_leaves_segments; [exact Hd|].
    rewrite H1. discriminate.
  - rewrite Hw, H1. reflexivity.
Qed.

(** C10: on a call made while [LastTimeDisp] still holds its static
    initialiser (the very first call after boot), an all-zero digit pattern
    leaves the machine untouched: no display write is issued.  The pattern
    is all zeros for 0 ms and for every duration of 6,000,000 ms or more. *)
Theorem first_dispTime_all_zero_no_write d s :
  LastTimeDisp s = LastTimeDisp power_on ->
  (timeDigits d = [0; 0; 0; 0] ->
     dispTime encodeDigit d s = s /\ writes (dispTime encodeDigit d s) = writes s)
  /\ (d = 0 \/ 6000000 <= d -> timeDigits d = [0; 0; 0; 0]).
Proof.
  intros HL. split.
  - intros E. rewrite dispTime_unchanged; [now split|].
    rewrite HL. exact E.
  - intros [->|Hd]; [exact timeDigits_zero | now apply timeDigits_sentinel].
Qed.

Lemma dispTime_shows d s :
  memcmp (timeDigits d) (LastTimeDisp s) 4 <> 0 ->
  shown (dispTime encodeDigit d s) = Some (encodeTime encodeDigit (timeDigits d)).
Proof. intros N. rewrite dispTime_changed by exact N. reflexivity. Qed.

Lemma separator_on_encodeTime d0 d1 d2 d3 :
  separator_on (encodeTime encodeDigit [d0; d1; d2; d3]).
Proof.
  cbn [encodeTime]. eexists. split; [reflexivity|].
  pose proof (byte_lor_128 (encodeDigit d1)) as Hb.
  apply Z.testbit_true; [lia|]. change (2 ^ 7) with 128.
  set (b := CInt.byte (Z.lor (encodeDigit d1) 128)) in *.
  assert (E : b / 128 = 1).
  { symmetry. apply Z.div_unique_pos with (r := b - 128); lia. }
  rewrite E. reflexivity.
Qed.

(** C5, as the code has it: for every duration d with 0 <= d <= 5,999,000 ms
    the digits computed by [dispTime] read minutes = ceil(d/1000) / 60 and
    seconds = ceil(d/1000) mod 60, two decimal digits each with leading
    zeros; whenever the routine writes, the display receives the encoding of
    exactly these digits, with the separator bit lit on the second one. *)
Theorem dispTime_countdown_pattern d s :
  0 <= d <= 5999000 ->
  shows_MMSS (countdownMinute d) (countdownSecond d) (timeDigits d)
  /\ encodeTime encodeDigit (timeDigits d) =
       [ CInt.byte (encodeDigit (countdownMinute d / 10));
         CInt.byte (Z.lor (encodeDigit (countdownMinute d mod 10)) 128);
         CInt.byte (encodeDigit (countdownSecond d / 10));
         CInt.byte (encodeDigit (countdownSecond d mod 10)) ]
  /\ separator_on (encodeTime encodeDigit (timeDigits d))
  /\ (memcmp (timeDigits d) (LastTimeDisp s) 4 <> 0 ->
      shown (dispTime encodeDigit d s) = Some (encodeTime encodeDigit (timeDigits d))).
Proof.
  intros Hd.
  set (minute := countdownMinute d). set (second := countdownSecond d).
  assert (E : timeDigits d =
              [minute / 10; minute mod 10; second / 10; second mod 10])
    by (apply timeDigits_below; lia).
  assert (Hc : 0 <= ceilSeconds d <= 5999).
  { rewrite ceilSeconds_round_up by lia. split.
    - apply Z.div_pos; lia.
    - apply Z.lt_succ_r. apply Z.div_lt_upper_bound; lia. }
  assert (Hm : 0 <= minute <= 99).
  { subst minute. unfold countdownMinute. split; [apply Z.div_pos; lia|].
    apply Z.lt_succ_r. apply Z.div_lt_upper_bound; lia. }
  assert (Hs : 0 <= second < 60)
    by (subst second; unfold countdownSecond; apply Z.mod_pos_bound; lia).
  pose proof (Z.div_mod minute 10 ltac:(lia)) as Em.
  pose proof (Z.mod_pos_bound minute 10 ltac:(lia)) as Bm.
  pose proof (Z.div_mod second 10 ltac:(lia)) as Es.
  pose proof (Z.mod_pos_bound second 10 ltac:(lia)) as Bs.
  split; [|split; [|split]].
  - rewrite E. cbn [shows_MMSS]. unfold two_digits, decimal_digit. lia.
  - rewrite E. reflexivity.
  - rewrite E. apply separator_on_encodeTime.
  - apply dispTime_shows.
Qed.

(** C6: for every duration of 6,000,000 ms or more, and for every negative
    remaining time down to -(2^32 - 6,000,000) once it is taken as an
    [unsigned long], the digits computed by [dispTime] are 00:00; whenever
    the routine writes, the display receives the encoding of four zeros with
    the separator. *)
Theorem dispTime_expired_pattern d r s :
  6000000 <= d ->
  - (CInt.ULONG_MOD - 6000000) <= r < 0 ->
  timeDigits d = [0; 0; 0; 0]
  /\ timeDigits (CInt.ulong r) = [0; 0; 0; 0]
  /\ shows_MMSS 0 0 (timeDigits d)
  /\ (memcmp (timeDigits d) (LastTimeDisp s) 4 <> 0 ->
      shown (dispTime encodeDigit d s) =
        Some [ CInt.byte (encodeDigit 0); CInt.byte (Z.lor (encodeDigit 0) 128);
               CInt.byte (encodeDigit 0); CInt.byte (encodeDigit 0) ]).
Proof.
  intros Hd Hr.
  assert (Ew : CInt.ulong r = r + CInt.ULONG_MOD).
  { unfold CInt.ulong. symmetry. apply Z.mod_unique_pos with (q := -1); ulia. }
  rewrite (timeDigits_sentinel d Hd).
  split; [reflexivity|]. split; [apply timeDigits_sentinel; rewrite Ew; ulia|].
  split.
  - cbn [shows_MMSS]. unfold two_digits, decimal_digit. lia.
  - intros N. rewrite <- (timeDigits_sentinel d Hd) in N.
    rewrite (dispTime_shows d s N), (timeDigits_sentinel d Hd). reflexivity.
Qed.

End DisplayProperties.

(** ** The control loop *)

Section ControlProperties.

Variable encodeDigit : Z -> Z.

(** [dispTime] touches [LastTimeDisp] and the display only. *)
Lemma dispTime_frame d s :
  steppingOn (dispTime encodeDigit d s) = steppingOn s
  /\ debugTimeMult (dispTime encodeDigit d s) = debugTimeMult s
  /\ lastButtonReading (dispTime encodeDigit d s) = lastButtonReading s
  /\ stopTime (dispTime encodeDigit d s) = stopTime s
  /\ state (dispTime encodeDigit d s) = state s
  /\ pin (dispTime encodeDigit d s) = pin s.
Proof.
  unfold dispTime.
  destruct (negb (memcmp (timeDigits d) (LastTimeDisp s) 4 =? 0));
    repeat split; reflexivity.
Qed.

Lemma newState_cases s i :
  newState s i =
    if state s =? ST_INIT then ST_IDLE
    else if buttonWasPressed s i then next_in_cycle (state s)
    else if (state s =? ST_RUN) && (myMillis s (millis1 i) >=? stopTime s)
         then ST_IDLE
    else state s.
Proof.
  unfold newState, next_in_cycle.
  destruct (Z.eqb_spec (state s) ST_INIT) as [E0|N0]; [reflexivity|].
  destruct (Z.eqb_spec (state s) ST_IDLE) as [E1|N1].
  { destruct (buttonWasPressed s i); [reflexivity|].
    rewrite E1. reflexivity. }
  destruct (Z.eqb_spec (state s) ST_HOLD) as [E2|N2].
  { destruct (buttonWasPressed s i); [reflexivity|].
    rewrite E2. reflexivity. }
  destruct (Z.eqb_spec (state s) ST_RUN) as [E3|N3].
  { destruct (buttonWasPressed s i); reflexivity. }
  destruct (buttonWasPressed s i); reflexivity.
Qed.

(** The fields of the machine after the entry actions of a state. *)
Lemma enter_fields ns i s :
  state (enter encodeDigit ns i s) = ns
  /\ debugTimeMult (enter encodeDigit ns i s) = debugTimeMult s
  /\ lastButtonReading (enter encodeDigit ns i s) = lastButtonReading s
  /\ steppingOn (enter encodeDigit ns i s) =
       (if ns =? ST_IDLE then false else if ns =? ST_HOLD then false
        else if ns =? ST_RUN then true else steppingOn s)
  /\ pin (enter encodeDigit ns i s) STEPPER_ENABLE_PIN =
       (if ns =? ST_IDLE then HIGH else if ns =? ST_HOLD then LOW
        else if ns =? ST_RUN then LOW else pin s STEPPER_ENABLE_PIN)
  /\ stopTime (enter encodeDigit ns i s) =
       (if ns =? ST_IDLE then stopTime s else if ns =? ST_HOLD then stopTime s
        else if ns =? ST_RUN
             then CInt.ulong (myMillis s (millis1 i) + CInt.ulong MAX_DURATION_MSEC)
        else stopTime s).
Proof.
  unfold enter.
  destruct (ns =? ST_IDLE); [repeat split; reflexivity|].
  destruct (ns =? ST_HOLD); [repeat split; reflexivity|].
  destruct (ns =? ST_RUN); [|repeat split; reflexivity].
  destruct (dispTime_frame (CInt.ulong MAX_DURATION_MSEC) s)
    as (Hs & Hm & Hb & Ht & Hst & Hp).
  unfold myMillis.
  cbn -[dispTime CInt.ulong MAX_DURATION_MSEC Z.mul].
  rewrite Hm, Hb.
  repeat split; reflexivity.
Qed.

(** The fields of the machine after one pass. *)
Lemma loop_fields s i :
  state (loop encodeDigit s i) = newState s i
  /\ debugTimeMult (loop encodeDigit s i) = debugTimeMult s
  /\ lastButtonReading (loop encodeDigit s i) = level_bool (button i)
  /\ steppingOn (loop encodeDigit s i) =
       (if state s =? newState s i then steppingOn s
        else steppingOn (enter encodeDigit (newState s i) i s))
  /\ pin (loop encodeDigit s i) STEPPER_ENABLE_PIN =
       (if state s =? newState s i then pin s STEPPER_ENABLE_PIN
        else pin (enter encodeDigit (newState s i) i s) STEPPER_ENABLE_PIN)
  /\ stopTime (loop encodeDigit s i) =
       (if state s =? newState s i then stopTime s
        else stopTime (enter encodeDigit (newState s i) i s)).
Proof.
  unfold loop.
  set (ns := newState s i).
  set (s1 := set_lastButtonReading (level_bool (button i)) s).
  assert (Hs1 : state s1 = state s) by reflexivity.
  set (s2 := if negb (state s1 =? ns) then enter encodeDigit ns i s1 else s1).
  set (s3 := if state s2 =? ST_RUN
             then dispTime encodeDigit (CInt.ulong (stopTime s2 - myMillis s2 (millis2 i))) s2
             else s2).
  assert (H3 : steppingOn s3 = steppingOn s2 /\ debugTimeMult s3 = debugTimeMult s2
               /\ lastButtonReading s3 = lastButtonReading s2
               /\ stopTime s3 = stopTime s2 /\ state s3 = state s2
               /\ pin s3 = pin s2).
  { subst s3. destruct (state s2 =? ST_RUN).
    - apply dispTime_frame.
    - repeat split; reflexivity. }
  destruct H3 as (Hs & Hm & Hb & Ht & Hst & Hp).
  rewrite Hs, Hm, Hb, Ht, Hst, Hp.
  subst s2. rewrite Hs1.
  destruct (Z.eqb_spec (state s) ns) as [E|N]; cbn [negb].
  - repeat split; try reflexivity. exact E.
  - destruct (enter_fields ns i s1) as (F1 & F2 & F3 & F4 & F5 & F6).
    destruct (enter_fields ns i s) as (G1 & G2 & G3 & G4 & G5 & G6).
    rewrite F1, F2, F3, F4, F5, F6, G4, G5, G6.
    repeat split; reflexivity.
Qed.

Lemma invariant_setup boot : invariant boot (setup boot power_on).
Proof.
  destruct boot; constructor; cbn; try tauto; try reflexivity;
    unfold ST_INIT, ST_IDLE, ST_HOLD, ST_RUN; split; intros H;
    try discriminate H; destruct H; discriminate.
Qed.

Lemma invariant_loop boot s i :
  invariant boot s -> invariant boot (loop encodeDigit s i).
Proof.
  intros [Hst Hinit Hstep Hmot Hmult].
  destruct (loop_fields s i) as (L1 & L2 & L3 & L4 & L5 & L6).
  destruct (enter_fields (newState s i) i s) as (_ & _ & _ & F4 & F5 & _).
  assert (Hns : newState s i = ST_IDLE \/ newState s i = ST_HOLD
                \/ newState s i = ST_RUN).
  { rewrite newState_cases. unfold next_in_cycle.
    destruct Hst as [E|[E|[E|E]]]; rewrite E;
      destruct (buttonWasPressed s i);
      destruct (myMillis s (millis1 i) >=? stopTime s); cbn; tauto. }
  unfold motorEnergized in *.
  constructor.
  - rewrite L1. tauto.
  - rewrite L1. intros E. destruct Hns as [H|[H|H]]; rewrite H in E; discriminate E.
  - rewrite L1, L4. destruct (Z.eqb_spec (state s) (newState s i)) as [E|N].
    + rewrite <- E. exact Hstep.
    + rewrite F4. destruct Hns as [H|[H|H]]; rewrite H; cbn;
        split; intros X; try discriminate X; reflexivity.
  - unfold motorEnergized. rewrite L1, L5.
    destruct (Z.eqb_spec (state s) (newState s i)) as [E|N].
    + rewrite <- E. exact Hmot.
    + rewrite F5. destruct Hns as [H|[H|H]]; rewrite H; cbn;
        split; intros X; try discriminate X; try (destruct X as [X|X]; discriminate X);
        try reflexivity; unfold ST_HOLD, ST_RUN; tauto.
  - rewrite L2. exact Hmult.
Qed.

(** The interrupt routine touches the step pin only. *)
Lemma invariant_isr boot s : invariant boot s -> invariant boot (takeStepISR s).
Proof.
  intros H. unfold takeStepISR.
  destruct (steppingOn s) eqn:E; [|exact H].
  destruct H as [Hst Hinit Hstep Hmot Hmult].
  constructor; assumption.
Qed.

Lemma reachable_invariant boot s :
  reachable encodeDigit boot s -> invariant boot s.
Proof.
  induction 1 as [|s i _ IH|s _ IH].
  - apply invariant_setup.
  - now apply invariant_loop.
  - now apply invariant_isr.
Qed.

Lemma run_reachable boot ins : reachable encodeDigit boot (run encodeDigit boot ins).
Proof.
  unfold run. generalize (reach_setup encodeDigit boot).
  generalize (setup boot power_on) as s.
  induction ins as [|i ins IH]; intros s Hs; cbn [fold_left].
  - exact Hs.
  - apply IH. now constructor.
Qed.

(** C2: in every reachable state, a pass of [loop] that sees a press-edge
    moves the drive state by exactly one step along Idle, Hold, Run, Idle
    (the state is one of these three, since no press-edge can be seen in
    Init); the pass ends in that next state, and the pass after it sees no
    press-edge whatever it reads, so one press is never counted twice. *)
Theorem press_edge_advances_one_step boot s i :
  reachable encodeDigit boot s ->
  buttonWasPressed s i = true ->
  (state s = ST_IDLE \/ state s = ST_HOLD \/ state s = ST_RUN)
  /\ state (loop encodeDigit s i) = next_in_cycle (state s)
  /\ state (loop encodeDigit s i) <> state s
  /\ forall j, buttonWasPressed (loop encodeDigit s i) j = false.
Proof.
  intros Hr Hp. destruct (reachable_invariant boot s Hr) as [Hst Hinit _ _ _].
  destruct (loop_fields s i) as (L1 & _ & L3 & _).
  assert (Hs : state s = ST_IDLE \/ state s = ST_HOLD \/ state s = ST_RUN).
  { destruct Hst as [E|Hst]; [|exact Hst].
    unfold buttonWasPressed in Hp. rewrite (Hinit E), andb_false_r in Hp.
    discriminate Hp. }
  assert (Hn : state (loop encodeDigit s i) = next_in_cycle (state s)).
  { rewrite L1, newState_cases, Hp.
    destruct Hs as [E|[E|E]]; rewrite E; reflexivity. }
  split; [exact Hs|]. split; [exact Hn|]. split.
  - rewrite Hn. destruct Hs as [E|[E|E]]; rewrite E; discriminate.
  - intros j. unfold buttonWasPressed in *. rewrite L3.
    destruct (level_bool (button i)); [discriminate Hp|].
    apply andb_false_r.
Qed.

(** C3: the sketch starts with state = Init and steppingOn = false; in every
    state reachable from there, steppingOn is true exactly when the drive
    state is Run; a pass that changes the state leaves the flag true if it
    entered Run and false if it entered Idle or Hold. *)
Theorem steppingOn_iff_run boot s :
  reachable encodeDigit boot s ->
  (state (setup boot power_on) = ST_INIT /\ steppingOn (setup boot power_on) = false)
  /\ (steppingOn s = true <-> state s = ST_RUN)
  /\ forall i, state (loop encodeDigit s i) <> state s ->
       (state (loop encodeDigit s i) = ST_RUN ->
          steppingOn (loop encodeDigit s i) = true)
       /\ (state (loop encodeDigit s i) = ST_IDLE
           \/ state (loop encodeDigit s i) = ST_HOLD ->
          steppingOn (loop encodeDigit s i) = false).
Proof.
  intros Hr. split; [destruct boot; split; reflexivity|].
  split; [apply (inv_stepping boot s (reachable_invariant boot s Hr))|].
  intros i _.
  pose proof (inv_stepping boot _
                (reachable_invariant boot _ (reach_loop encodeDigit boot s i Hr)))
    as [H1 H2].
  split; [exact H2|].
  intros Hs. destruct (steppingOn (loop encodeDigit s i)); [|reflexivity].
  specialize (H1 eq_refl). rewrite H1 in Hs.
  destruct Hs as [X|X]; discriminate X.
Qed.

(** C8: after [setup] the enable output is high (motor de-energized); in
    every reachable state the active-low enable output energizes the motor
    exactly when the drive state is Hold or Run, and it is de-energized in
    Idle and in Init. *)
Theorem motor_energized_iff_hold_or_run boot s :
  reachable encodeDigit boot s ->
  (pin (setup boot power_on) STEPPER_ENABLE_PIN = HIGH
   /\ motorEnergized (setup boot power_on) = false)
  /\ (motorEnergized s = true <-> state s = ST_HOLD \/ state s = ST_RUN)
  /\ (state s = ST_IDLE \/ state s = ST_INIT -> motorEnergized s = false).
Proof.
  intros Hr. split; [destruct boot; split; reflexivity|].
  pose proof (inv_motor boot s (reachable_invariant boot s Hr)) as [H1 H2].
  split; [split; assumption|].
  intros Hs. destruct (motorEnergized s); [|reflexivity].
  destruct (H1 eq_refl) as [X|X]; rewrite X in Hs;
    destruct Hs as [Y|Y]; discriminate Y.
Qed.

(** C9: [setup] sets the multiplier from the button level it reads, 60 when
    the button reads low (pressed) and 1 otherwise; every reachable state
    carries that value, and neither a pass of [loop], nor a call of
    [dispTime], nor the timer interrupt changes it. *)
Theorem debugTimeMult_fixed_at_boot boot s :
  reachable encodeDigit boot s ->
  debugTimeMult (setup boot power_on) = (if level_int boot =? 0 then 60 else 1)
  /\ debugTimeMult s = debugTimeMult (setup boot power_on)
  /\ (forall i, debugTimeMult (loop encodeDigit s i) = debugTimeMult s)
  /\ (forall d, debugTimeMult (dispTime encodeDigit d s) = debugTimeMult s)
  /\ debugTimeMult (takeStepISR s) = debugTimeMult s.
Proof.
  intros Hr. split; [destruct boot; reflexivity|].
  split.
  - rewrite (inv_mult boot s (reachable_invariant boot s Hr)).
    destruct boot; reflexivity.
  - split; [|split].
    + intros i. apply (loop_fields s i).
    + intros d. apply (dispTime_frame d s).
    + unfold takeStepISR. destruct (steppingOn s); reflexivity.
Qed.

End ControlProperties.

(** ** The time source *)

(** Whatever the clock value, [myMillis] is the product modulo 2^32. *)
Lemma myMillis_mod s m :
  myMillis s m = (m * debugTimeMult s) mod CInt.ULONG_MOD.
Proof.
  unfold myMillis, CInt.ulong. apply Z.mul_mod_idemp_r.
  rewrite ULONG_MOD_value. discriminate.
Qed.

Lemma myMillis_exact s m :
  0 <= m * debugTimeMult s < CInt.ULONG_MOD -> myMillis s m = m * debugTimeMult s.
Proof. intros H. rewrite myMillis_mod. now apply Z.mod_small. Qed.

Lemma bootMultiplier_pos boot : 1 <= bootMultiplier boot <= 60.
Proof. destruct boot; cbn; lia. Qed.

Section TimeSource.

Variable encodeDigit : Z -> Z.

(** C7: [myMillis] takes the raw clock value and the machine and returns a
    number only (no machine comes back: it has no effect).  At any two
    points of a run, whatever happened between them, for raw clock values
    m <= m' with m' times the multiplier below 2^32 (no overflow), the
    value returned is exactly the raw value times the multiplier chosen at
    boot, and the earlier value is at most the later one. *)
Theorem myMillis_exact_and_monotone boot s s' m m' :
  reachable encodeDigit boot s ->
  reachable encodeDigit boot s' ->
  0 <= m <= m' ->
  m' * bootMultiplier boot < CInt.ULONG_MOD ->
  myMillis s m = m * bootMultiplier boot
  /\ myMillis s' m' = m' * bootMultiplier boot
  /\ myMillis s m <= myMillis s' m'.
Proof.
  intros Hs Hs' Hm Hb.
  pose proof (inv_mult boot s (reachable_invariant encodeDigit boot s Hs)) as E.
  pose proof (inv_mult boot s' (reachable_invariant encodeDigit boot s' Hs')) as E'.
  pose proof (bootMultiplier_pos boot) as Hk.
  assert (H1 : myMillis s m = m * bootMultiplier boot).
  { rewrite myMillis_exact; rewrite E; [reflexivity|]. nia. }
  assert (H2 : myMillis s' m' = m' * bootMultiplier boot).
  { rewrite myMillis_exact; rewrite E'; [reflexivity|]. nia. }
  rewrite H1, H2. repeat split. nia.
Qed.

End TimeSource.

(** In the 60x mode the product leaves the 32-bit range after about 19.9
    hours of raw time, and the value returned drops back. *)
Lemma myMillis_wraps_in_debug_mode :
  myMillis (setup LOW power_on) 71582788 = 4294967280
  /\ myMillis (setup LOW power_on) 71582789 = 44.
Proof. split; reflexivity. Qed.

(** ** The run deadline *)

(** The first index at which a sequence reaches a bound. *)
Lemma first_reaching (T : nat -> Z) (D : Z) (m : nat) :
  D <= T m ->
  exists n, (n <= m)%nat /\ D <= T n /\ forall k, (k < n)%nat -> T k < D.
Proof.
  intros Hm.
  assert (H : forall j,
             (exists n, (n <= j)%nat /\ D <= T n /\ forall k, (k < n)%nat -> T k < D)
             \/ (forall k, (k <= j)%nat -> T k < D)).
  { induction j as [|j [IH|IH]].
    - destruct (Z_le_gt_dec D (T 0%nat)) as [Hle|Hgt].
      + left. exists 0%nat. repeat split; [lia|exact Hle|intros k Hk; lia].
      + right. intros k Hk. assert (k = 0%nat) as -> by lia. lia.
    - left. destruct IH as (n & Hn & Hrest). exists n. split; [lia|exact Hrest].
    - destruct (Z_le_gt_dec D (T (S j))) as [Hle|Hgt].
      + left. exists (S j). repeat split; [lia|exact Hle|].
        intros k Hk. apply IH. lia.
      + right. intros k Hk.
        destruct (Nat.eq_dec k (S j)) as [->|Hne]; [lia|apply IH; lia]. }
  destruct (H m) as [Hex|Hall]; [exact Hex|].
  specialize (Hall m (Nat.le_refl m)). lia.
Qed.

Section RunDeadline.

Variable encodeDigit : Z -> Z.

(** A press-edge in Hold enters Run and arms the deadline. *)
Lemma hold_press_enters_run s i :
  state s = ST_HOLD -> buttonWasPressed s i = true ->
  state (loop encodeDigit s i) = ST_RUN
  /\ stopTime (loop encodeDigit s i) =
       CInt.ulong (myMillis s (millis1 i) + CInt.ulong MAX_DURATION_MSEC)
  /\ debugTimeMult (loop encodeDigit s i) = debugTimeMult s.
Proof.
  intros Hs Hp.
  destruct (loop_fields encodeDigit s i) as (L1 & L2 & _ & _ & _ & L6).
  destruct (enter_fields encodeDigit (newState s i) i s) as (_ & _ & _ & _ & _ & F6).
  assert (Hn : newState s i = ST_RUN).
  { rewrite newState_cases, Hp, Hs. reflexivity. }
  rewrite L1, L2, L6, F6, Hn, Hs. repeat split; reflexivity.
Qed.

(** Without a press-edge and before the deadline, Run stays Run. *)
Lemma run_stays s i :
  state s = ST_RUN -> buttonWasPressed s i = false ->
  myMillis s (millis1 i) < stopTime s ->
  state (loop encodeDigit s i) = ST_RUN
  /\ stopTime (loop encodeDigit s i) = stopTime s
  /\ debugTimeMult (loop encodeDigit s i) = debugTimeMult s.
Proof.
  intros Hs Hp Ht.
  destruct (loop_fields encodeDigit s i) as (L1 & L2 & _ & _ & _ & L6).
  assert (Hn : newState s i = ST_RUN).
  { rewrite newState_cases, Hp, Hs.
    destruct (Z.geb_spec (myMillis s (millis1 i)) (stopTime s)); [lia|reflexivity]. }
  rewrite L1, L2, L6, Hn, Hs. repeat split; reflexivity.
Qed.

(** At or after the deadline, Run goes to Idle. *)
Lemma run_expires s i :
  state s = ST_RUN -> stopTime s <= myMillis s (millis1 i) ->
  state (loop encodeDigit s i) = ST_IDLE.
Proof.
  intros Hs Ht.
  destruct (loop_fields encodeDigit s i) as (L1 & _).
  rewrite L1, newState_cases, Hs.
  destruct (buttonWasPressed s i); [reflexivity|].
  destruct (Z.geb_spec (myMillis s (millis1 i)) (stopTime s)); [reflexivity|lia].
Qed.

Lemma myMillis_same_mult s s' m :
  debugTimeMult s = debugTimeMult s' -> myMillis s m = myMillis s' m.
Proof. intros E. unfold myMillis. now rewrite E. Qed.

(** C4, as the code has it: let a press-edge in Hold start a Run, with t0 the
    logical time read when the deadline is armed, and let t0 + 3,000,000 stay
    below 2^32.  Then the deadline is t0 + 3,000,000.  If no later pass sees
    a press-edge and the check of some pass m reads a time at or past the
    deadline, there is a first such pass n: the machine is in Run up to it
    and in Idle after it, and the time t that pass reads satisfies
    t0 + 3,000,000 <= t < t0 + 3,000,000 + P, where P bounds the logical
    time between one reading and the next (one control-cycle period). *)
Theorem run_ends_at_deadline s0 i0 ins m P :
  state s0 = ST_HOLD ->
  buttonWasPressed s0 i0 = true ->
  myMillis s0 (millis1 i0) + MAX_DURATION_MSEC < CInt.ULONG_MOD ->
  (forall k, (k <= m)%nat ->
     buttonWasPressed (passes encodeDigit (loop encodeDigit s0 i0) ins k) (ins k)
     = false) ->
  myMillis s0 (millis1 i0) + MAX_DURATION_MSEC <= checkTime s0 ins m ->
  checkTime s0 ins 0 - myMillis s0 (millis1 i0) <= P ->
  (forall k, (k < m)%nat -> checkTime s0 ins (S k) - checkTime s0 ins k <= P) ->
  state (loop encodeDigit s0 i0) = ST_RUN
  /\ stopTime (loop encodeDigit s0 i0) = myMillis s0 (millis1 i0) + MAX_DURATION_MSEC
  /\ exists n, (n <= m)%nat
       /\ (forall k, (k <= n)%nat ->
             state (passes encodeDigit (loop encodeDigit s0 i0) ins k) = ST_RUN)
       /\ state (passes encodeDigit (loop encodeDigit s0 i0) ins (S n)) = ST_IDLE
       /\ myMillis s0 (millis1 i0) + MAX_DURATION_MSEC <= checkTime s0 ins n
          < myMillis s0 (millis1 i0) + MAX_DURATION_MSEC + P.
Proof.
  intros Hs Hp Hov Hnp Hm Hg0 Hg.
  destruct (hold_press_enters_run s0 i0 Hs Hp) as (R1 & R2 & R3).
  set (s1 := loop encodeDigit s0 i0) in *.
  set (t0 := myMillis s0 (millis1 i0)) in *.
  assert (Ht0 : 0 <= t0) by (subst t0; unfold myMillis; apply ulong_range).
  assert (HD : stopTime s1 = t0 + MAX_DURATION_MSEC).
  { rewrite R2. unfold MAX_DURATION_MSEC in *.
    rewrite (ulong_small 3000000) by ulia. apply ulong_small. lia. }
  split; [exact R1|]. split; [exact HD|].
  destruct (first_reaching (checkTime s0 ins) _ m Hm) as (n & Hn & Hreach & Hbefore).
  assert (Hrun : forall k, (k <= n)%nat ->
             state (passes encodeDigit s1 ins k) = ST_RUN
             /\ stopTime (passes encodeDigit s1 ins k) = t0 + MAX_DURATION_MSEC
             /\ debugTimeMult (passes encodeDigit s1 ins k) = debugTimeMult s0).
  { induction k as [|k IH]; intros Hk.
    - cbn [passes]. repeat split; assumption.
    - destruct IH as (I1 & I2 & I3); [lia|].
      cbn [passes].
      destruct (run_stays (passes encodeDigit s1 ins k) (ins k)) as (S1 & S2 & S3).
      + exact I1.
      + apply Hnp. lia.
      + rewrite I2, (myMillis_same_mult _ s0 _ I3). apply Hbefore. lia.
      + rewrite S1, S2, S3. repeat split; assumption. }
  exists n. split; [exact Hn|]. split; [intros k Hk; apply (Hrun k Hk)|].
  split.
  - destruct (Hrun n (Nat.le_refl n)) as (I1 & I2 & I3).
    cbn [passes]. apply run_expires; [exact I1|].
    rewrite I2, (myMillis_same_mult _ s0 _ I3). exact Hreach.
  - split; [exact Hreach|].
    destruct n as [|n'].
    + unfold MAX_DURATION_MSEC. lia.
    + specialize (Hbefore n' (Nat.lt_succ_diag_r n')).
      specialize (Hg n' ltac:(lia)). lia.
Qed.

(** A pass that stays in Run after [dispTime] has written once writes the
    display again, whatever the remaining time: in Run the display is
    rewritten on every pass. *)
Lemma run_pass_writes_again s i :
  state s = ST_RUN -> newState s i = ST_RUN ->
  segment_buffer (LastTimeDisp s) ->
  writes (loop encodeDigit s i) = S (writes s)
  /\ segment_buffer (LastTimeDisp (loop encodeDigit s i)).
Proof.
  intros Hs Hn Hb. unfold loop. rewrite Hn. cbn [state set_lastButtonReading].
  rewrite Hs. cbn [Z.eqb ST_RUN Pos.eqb negb].
  cbn [state set_lastButtonReading]. rewrite Hs. cbn [Z.eqb ST_RUN Pos.eqb].
  set (s1 := set_lastButtonReading (level_bool (button i)) s).
  apply (dispTime_writes_after_write encodeDigit _ s1).
  - apply ulong_range.
  - exact Hb.
Qed.

End RunDeadline.

(** * Sample runs *)

(** C5 at 5,999,001 ms, below the 6,000,000 ms threshold: the rounded-up
    seconds are 6000, the minutes 100, and the first digit computed is 10,
    which is no decimal digit; minutes are not shown as two digits (with the
    library's segment table the display reads A0:00). *)
Lemma countdown_not_two_digits_at_5999001 :
  0 <= 5999001 < 6000000
  /\ countdownMinute 5999001 = 100
  /\ timeDigits 5999001 = [10; 0; 0; 0]
  /\ ~ shows_MMSS (countdownMinute 5999001) (countdownSecond 5999001)
         (timeDigits 5999001)
  /\ shown (dispTime tm1637_encodeDigit 5999001 power_on) = Some [119; 191; 63; 63].
Proof.
  split; [lia|]. split; [reflexivity|]. split; [reflexivity|].
  split; [|reflexivity].
  change (timeDigits 5999001) with [10; 0; 0; 0].
  cbn [shows_MMSS]. unfold two_digits, decimal_digit. lia.
Qed.

(** C4 in the 60x mode, about 19.9 hours after power-up: Run is entered at
    logical time t0 = 4,293,000,000; the deadline wraps to 1,032,704, and the
    next pass, which sees no press-edge and reads 4,293,000,600, already
    returns to Idle, long before t0 + 3,000,000. *)
Lemma run_cut_short_by_clock_wrap :
  reachable tm1637_encodeDigit LOW wrap_hold
  /\ state wrap_hold = ST_HOLD
  /\ buttonWasPressed wrap_hold wrap_press = true
  /\ state (loop tm1637_encodeDigit wrap_hold wrap_press) = ST_RUN
  /\ myMillis wrap_hold (millis1 wrap_press) = 4293000000
  /\ stopTime (loop tm1637_encodeDigit wrap_hold wrap_press) = 1032704
  /\ buttonWasPressed (loop tm1637_encodeDigit wrap_hold wrap_press) wrap_next = false
  /\ state (loop tm1637_encodeDigit
              (loop tm1637_encodeDigit wrap_hold wrap_press) wrap_next) = ST_IDLE
  /\ ~ (myMillis wrap_hold (millis1 wrap_press) + MAX_DURATION_MSEC
        <= myMillis wrap_hold (millis1 wrap_next)).
Proof.
  split; [apply run_reachable|].
  repeat (split; [vm_compute; reflexivity|]).
  vm_compute. intros H. apply H. reflexivity.
Qed.

Lemma first_dispTime_all_zero_no_write_witness :
  dispTime tm1637_encodeDigit 0 power_on = power_on
  /\ timeDigits 6000000 = [0; 0; 0; 0].
Proof.
  split.
  - apply (first_dispTime_all_zero_no_write tm1637_encodeDigit 0 power_on eq_refl).
    reflexivity.
  - apply (first_dispTime_all_zero_no_write tm1637_encodeDigit 6000000 power_on
             eq_refl).
    right. lia.
Defined.

Lemma dispTime_countdown_pattern_witness :
  shows_MMSS 50 0 (timeDigits 3000000)
  /\ shown (dispTime tm1637_encodeDigit 3000000 power_on) = Some [109; 191; 63; 63].
Proof.
  assert (Hd : 0 <= 3000000 <= 5999000) by lia.
  destruct (dispTime_countdown_pattern tm1637_encodeDigit 3000000 power_on Hd)
    as (H1 & _ & _ & H4).
  split; [exact H1|].
  apply H4. vm_compute. discriminate.
Defined.

Lemma dispTime_expired_pattern_witness :
  timeDigits 6000000 = [0; 0; 0; 0]
  /\ timeDigits (CInt.ulong (-1)) = [0; 0; 0; 0]
  /\ shown (dispTime tm1637_encodeDigit 6000000
              (dispTime tm1637_encodeDigit 1000 power_on)) = Some [63; 191; 63; 63].
Proof.
  assert (Hd : 6000000 <= 6000000) by lia.
  assert (Hr : - (CInt.ULONG_MOD - 6000000) <= -1 < 0) by (vm_compute; split; congruence).
  destruct (dispTime_expired_pattern tm1637_encodeDigit 6000000 (-1)
              (dispTime tm1637_encodeDigit 1000 power_on) Hd Hr)
    as (H1 & H2 & _ & H4).
  split; [exact H1|]. split; [exact H2|].
  apply H4. vm_compute. discriminate.
Defined.

Lemma press_edge_advances_one_step_witness :
  state idle_released = ST_IDLE
  /\ state (loop tm1637_encodeDigit idle_released (mkInput LOW 10 10)) = ST_HOLD.
Proof.
  split; [reflexivity|].
  apply (press_edge_advances_one_step tm1637_encodeDigit HIGH idle_released
           (mkInput LOW 10 10)).
  - apply run_reachable.
  - reflexivity.
Defined.

Lemma steppingOn_iff_run_witness :
  steppingOn idle_released = true <-> state idle_released = ST_RUN.
Proof.
  apply (steppingOn_iff_run tm1637_encodeDigit HIGH idle_released).
  apply run_reachable.
Defined.

Lemma motor_energized_iff_hold_or_run_witness :
  motorEnergized wrap_hold = true
  <-> state wrap_hold = ST_HOLD \/ state wrap_hold = ST_RUN.
Proof.
  apply (motor_energized_iff_hold_or_run tm1637_encodeDigit LOW wrap_hold).
  apply run_reachable.
Defined.

Lemma debugTimeMult_fixed_at_boot_witness :
  debugTimeMult (setup LOW power_on) = 60
  /\ debugTimeMult wrap_hold = debugTimeMult (setup LOW power_on).
Proof.
  destruct (debugTimeMult_fixed_at_boot tm1637_encodeDigit LOW wrap_hold
              (run_reachable tm1637_encodeDigit LOW _)) as (H1 & H2 & _).
  split; [exact H1|exact H2].
Defined.

Lemma myMillis_exact_and_monotone_witness :
  myMillis (setup LOW power_on) 1000 = 1000 * 60
  /\ myMillis wrap_hold 1010 = 1010 * 60
  /\ myMillis (setup LOW power_on) 1000 <= myMillis wrap_hold 1010.
Proof.
  apply (myMillis_exact_and_monotone tm1637_encodeDigit LOW
           (setup LOW power_on) wrap_hold 1000 1010).
  - apply reach_setup.
  - apply run_reachable.
  - lia.
  - vm_compute. reflexivity.
Defined.

Lemma run_ends_at_deadline_witness :
  exists n, (n <= 4999)%nat
    /\ state (passes tm1637_encodeDigit
                (loop tm1637_encodeDigit wrap_hold debug_press) debug_ticks (S n))
       = ST_IDLE
    /\ 6000 + MAX_DURATION_MSEC <= checkTime wrap_hold debug_ticks n
       < 6000 + MAX_DURATION_MSEC + 600.
Proof.
  assert (Hmult : debugTimeMult wrap_hold = 60) by reflexivity.
  assert (Ht0 : myMillis wrap_hold (millis1 debug_press) = 6000) by reflexivity.
  assert (Htick : forall k, (k <= 4999)%nat ->
            checkTime wrap_hold debug_ticks k = 6000 + 600 * Z.of_nat (S k)).
  { intros k Hk. unfold checkTime, debug_ticks. cbn [millis1].
    rewrite myMillis_exact; rewrite Hmult; [lia|]. rewrite ULONG_MOD_value. lia. }
  destruct (run_ends_at_deadline tm1637_encodeDigit wrap_hold debug_press
              debug_ticks 4999%nat 600)
    as (_ & _ & n & Hn & _ & Hidle & Hb).
  - reflexivity.
  - reflexivity.
  - rewrite Ht0. vm_compute. reflexivity.
  - intros k _. reflexivity.
  - rewrite Ht0, Htick by lia. unfold MAX_DURATION_MSEC. lia.
  - rewrite Ht0, Htick by lia. lia.
  - intros k Hk. rewrite !Htick by lia. lia.
  - exists n. rewrite Ht0 in Hb. split; [exact Hn|]. split; [exact Hidle|exact Hb].
Defined.

(** * Further properties of the sketch *)

(** ** One pass of [loop], case by case *)

Section LoopCases.

Variable encodeDigit : Z -> Z.

(** No transition, outside Run: only the button reading is stored. *)
Lemma loop_steady s i :
  state s = newState s i -> state s <> ST_RUN ->
  loop encodeDigit s i = set_lastButtonReading (level_bool (button i)) s.
Proof.
  intros E N. unfold loop. cbn [state set_lastButtonReading].
  rewrite <- E, Z.eqb_refl. cbn [negb state set_lastButtonReading].
  destruct (Z.eqb_spec (state s) ST_RUN); [contradiction|reflexivity].
Qed.

(** No transition, in Run: the remaining time is rendered. *)
Lemma loop_run_render s i :
  state s = ST_RUN -> newState s i = ST_RUN ->
  loop encodeDigit s i =
    dispTime encodeDigit (CInt.ulong (stopTime s - myMillis s (millis2 i)))
             (set_lastButtonReading (level_bool (button i)) s).
Proof.
  intros E N. unfold loop. cbn [state set_lastButtonReading].
  rewrite N, E, Z.eqb_refl. cbn [negb state set_lastButtonReading].
  rewrite E, Z.eqb_refl. reflexivity.
Qed.

(** A transition into Idle or Hold: the entry actions, and no rendering. *)
Lemma loop_enter_static s i :
  state s <> newState s i -> newState s i <> ST_RUN ->
  loop encodeDigit s i =
    enter encodeDigit (newState s i) i
          (set_lastButtonReading (level_bool (button i)) s).
Proof.
  intros N R. unfold loop. cbn [state set_lastButtonReading].
  destruct (Z.eqb_spec (state s) (newState s i)); [contradiction|].
  cbn [negb].
  destruct (enter_fields encodeDigit (newState s i) i
              (set_lastButtonReading (level_bool (button i)) s)) as (F & _).
  rewrite F. destruct (Z.eqb_spec (newState s i) ST_RUN); [contradiction|reflexivity].
Qed.

(** The machine right after the entry actions of Run. *)
Lemma enter_run_unfold i s :
  enter encodeDigit ST_RUN i s =
    set_state ST_RUN
      (set_stopTime (CInt.ulong (myMillis s (millis1 i) + CInt.ulong MAX_DURATION_MSEC))
         (digitalWrite STEPPER_ENABLE_PIN LOW
            (set_steppingOn true
               (dispTime encodeDigit (CInt.ulong MAX_DURATION_MSEC) s)))).
Proof.
  unfold enter. cbn [Z.eqb ST_RUN ST_IDLE ST_HOLD Pos.eqb].
  destruct (dispTime_frame encodeDigit (CInt.ulong MAX_DURATION_MSEC) s)
    as (_ & Hm & _).
  unfold myMillis. cbn [debugTimeMult digitalWrite set_steppingOn].
  rewrite Hm. reflexivity.
Qed.

(** A transition into Run: the entry actions, then the first rendering. *)
Lemma loop_enter_run s i :
  state s <> ST_RUN -> newState s i = ST_RUN ->
  loop encodeDigit s i =
    dispTime encodeDigit
      (CInt.ulong
         (CInt.ulong (myMillis s (millis1 i) + CInt.ulong MAX_DURATION_MSEC)
          - myMillis s (millis2 i)))
      (enter encodeDigit ST_RUN i (set_lastButtonReading (level_bool (button i)) s)).
Proof.
  intros N R. unfold loop. cbn [state set_lastButtonReading]. rewrite R.
  destruct (Z.eqb_spec (state s) ST_RUN); [contradiction|]. cbn [negb].
  set (s1 := set_lastButtonReading (level_bool (button i)) s).
  destruct (enter_fields encodeDigit ST_RUN i s1) as (F1 & F2 & _ & _ & _ & F6).
  rewrite F1. cbn [Z.eqb ST_RUN Pos.eqb]. rewrite F6.
  cbn [Z.eqb ST_RUN ST_IDLE ST_HOLD Pos.eqb].
  rewrite (myMillis_same_mult (enter encodeDigit ST_RUN i s1) s (millis2 i) F2).
  reflexivity.
Qed.

End LoopCases.

(** ** The state machine, pass by pass *)

Lemma newState_range s i :
  newState s i = state s \/ newState s i = ST_IDLE
  \/ newState s i = ST_HOLD \/ newState s i = ST_RUN.
Proof.
  unfold newState.
  destruct (state s =? ST_INIT); [tauto|].
  destruct (Z.eqb_spec (state s) ST_IDLE);
    [destruct (buttonWasPressed s i); tauto|].
  destruct (Z.eqb_spec (state s) ST_HOLD);
    [destruct (buttonWasPressed s i); tauto|].
  destruct (Z.eqb_spec (state s) ST_RUN); [|tauto].
  destruct (buttonWasPressed s i || (myMillis s (millis1 i) >=? stopTime s)); tauto.
Qed.

Section StateMachine.

Variable encodeDigit : Z -> Z.

(** X1: whatever the button level at boot and whatever the first pass reads,
    the first pass of [loop] after [setup] ends in Idle with the Idle glyph
    as the only display write, stepping off, the motor de-energized and the
    button level stored. *)
Theorem first_pass_enters_idle boot i :
  state (loop encodeDigit (setup boot power_on) i) = ST_IDLE
  /\ segments (loop encodeDigit (setup boot power_on) i) = [IdleDisp]
  /\ steppingOn (loop encodeDigit (setup boot power_on) i) = false
  /\ motorEnergized (loop encodeDigit (setup boot power_on) i) = false
  /\ lastButtonReading (loop encodeDigit (setup boot power_on) i)
     = level_bool (button i).
Proof.
  destruct boot; repeat split; reflexivity.
Qed.

(** X2: in Idle and in Hold, a pass that sees no press-edge changes nothing
    but the stored button reading: no display write, no pin write, no change
    of state, flag or deadline. *)
Theorem idle_hold_steady s i :
  state s = ST_IDLE \/ state s = ST_HOLD ->
  buttonWasPressed s i = false ->
  loop encodeDigit s i = set_lastButtonReading (level_bool (button i)) s.
Proof.
  intros Hs Hp. apply loop_steady.
  - rewrite newState_cases, Hp. destruct Hs as [E|E]; rewrite E; reflexivity.
  - destruct Hs as [E|E]; rewrite E; discriminate.
Qed.

(** X3: a pass changes the drive state only for one of three reasons: the
    state was Init, the pass saw a press-edge, or the state was Run and the
    clock read by the check had reached the deadline. *)
Theorem state_change_has_cause s i :
  state (loop encodeDigit s i) <> state s ->
  state s = ST_INIT
  \/ buttonWasPressed s i = true
  \/ (state s = ST_RUN /\ stopTime s <= myMillis s (millis1 i)).
Proof.
  destruct (loop_fields encodeDigit s i) as (L1 & _). rewrite L1, newState_cases.
  destruct (Z.eqb_spec (state s) ST_INIT) as [E|_]; [tauto|].
  destruct (buttonWasPressed s i); [tauto|].
  destruct (Z.eqb_spec (state s) ST_RUN) as [E|_]; cbn [andb]; [|tauto].
  destruct (Z.geb_spec (myMillis s (millis1 i)) (stopTime s)); [|tauto].
  intros _. right. right. split; [exact E|lia].
Qed.

(** X4: from Run, a pass ends in Idle exactly when it saw a press-edge or the
    clock read by the check is at or past the deadline, and it stays in Run
    otherwise. *)
Theorem run_exit_condition s i :
  state s = ST_RUN ->
  (state (loop encodeDigit s i) = ST_IDLE
   <-> buttonWasPressed s i = true \/ stopTime s <= myMillis s (millis1 i))
  /\ (state (loop encodeDigit s i) = ST_RUN
      <-> buttonWasPressed s i = false /\ myMillis s (millis1 i) < stopTime s).
Proof.
  intros E. destruct (loop_fields encodeDigit s i) as (L1 & _).
  rewrite L1, newState_cases, E. cbn [Z.eqb ST_RUN ST_INIT andb next_in_cycle].
  unfold next_in_cycle. cbn [Z.eqb ST_RUN ST_IDLE ST_HOLD Pos.eqb].
  destruct (buttonWasPressed s i).
  - split; split; intros H; try tauto; try discriminate H.
    destruct H as [H _]. discriminate H.
  - destruct (Z.geb_spec (myMillis s (millis1 i)) (stopTime s)) as [G|G].
    + split; split; intros H; try reflexivity; try discriminate H.
      * right. lia.
      * destruct H as [_ H]. lia.
    + split; split; intros H; try reflexivity; try discriminate H.
      * destruct H as [H|H]; [discriminate H|lia].
      * split; [reflexivity|lia].
Qed.

(** X5: in every reachable state a pass never goes back to Init, and it
    either keeps the state or moves one step along Idle, Hold, Run, Idle
    (from Init it moves to Idle). *)
Theorem loop_transition_graph boot s i :
  reachable encodeDigit boot s ->
  state (loop encodeDigit s i) <> ST_INIT
  /\ (state (loop encodeDigit s i) = state s
      \/ state (loop encodeDigit s i) = next_in_cycle (state s)
      \/ (state s = ST_INIT /\ state (loop encodeDigit s i) = ST_IDLE)).
Proof.
  intros Hr.
  destruct (reachable_invariant encodeDigit boot s Hr) as [Hst _ _ _ _].
  destruct (loop_fields encodeDigit s i) as (L1 & _).
  rewrite L1, newState_cases.
  destruct Hst as [E|[E|[E|E]]]; rewrite E;
    destruct (buttonWasPressed s i);
    destruct (myMillis s (millis1 i) >=? stopTime s);
    cbn; (split; [discriminate|tauto]).
Qed.

(** X6: a pass that changes the state into Idle issues exactly one display
    write, the Idle glyph, and one that changes it into Hold exactly one, the
    Hold glyph; neither touches [LastTimeDisp]. *)
Theorem static_state_entry_shows_glyph s i :
  state (loop encodeDigit s i) <> state s ->
  (state (loop encodeDigit s i) = ST_IDLE ->
     segments (loop encodeDigit s i) = IdleDisp :: segments s
     /\ LastTimeDisp (loop encodeDigit s i) = LastTimeDisp s)
  /\ (state (loop encodeDigit s i) = ST_HOLD ->
     segments (loop encodeDigit s i) = HoldDisp :: segments s
     /\ LastTimeDisp (loop encodeDigit s i) = LastTimeDisp s).
Proof.
  destruct (loop_fields encodeDigit s i) as (L1 & _). rewrite L1.
  intros N. split; intros E.
  - rewrite loop_enter_static; [|congruence|rewrite E; discriminate].
    rewrite E. split; reflexivity.
  - rewrite loop_enter_static; [|congruence|rewrite E; discriminate].
    rewrite E. split; reflexivity.
Qed.

(** X7: while the button is held down (every pass reads low), no pass after
    the first sees a press-edge; so a press made in Idle leads to Hold and
    the machine stays in Hold for as long as the button is held. *)
Theorem held_button_counts_once s ins :
  (forall k, button (ins k) = LOW) ->
  (forall k, (1 <= k)%nat ->
     buttonWasPressed (passes encodeDigit s ins k) (ins k) = false)
  /\ (state s = ST_IDLE -> lastButtonReading s = true ->
      forall n, (1 <= n)%nat -> state (passes encodeDigit s ins n) = ST_HOLD).
Proof.
  intros Hlow.
  assert (Hlast : forall k, lastButtonReading (passes encodeDigit s ins (S k)) = false).
  { intros k. cbn [passes].
    destruct (loop_fields encodeDigit (passes encodeDigit s ins k) (ins k))
      as (_ & _ & L3 & _).
    rewrite L3, Hlow. reflexivity. }
  assert (Hnp : forall k, (1 <= k)%nat ->
            buttonWasPressed (passes encodeDigit s ins k) (ins k) = false).
  { intros [|k] Hk; [lia|]. unfold buttonWasPressed. rewrite Hlast.
    apply andb_false_r. }
  split; [exact Hnp|].
  intros Hs Hb n Hn. induction n as [|n IH]; [lia|].
  cbn [passes].
  destruct (loop_fields encodeDigit (passes encodeDigit s ins n) (ins n)) as (L1 & _).
  rewrite L1, newState_cases.
  destruct n as [|n].
  - cbn [passes]. rewrite Hs. unfold buttonWasPressed. rewrite Hb, Hlow. reflexivity.
  - rewrite (Hnp (S n)) by lia. rewrite IH by lia. reflexivity.
Qed.

End StateMachine.

(** ** The display, pass by pass *)

Lemma display_buffer_glyphs : display_buffer IdleDisp /\ display_buffer HoldDisp.
Proof.
  split; (split; [reflexivity|]); repeat constructor; lia.
Qed.

Section DisplayPasses.

Variable encodeDigit : Z -> Z.

Lemma display_buffer_encodeTime d :
  0 <= d < CInt.ULONG_MOD -> display_buffer (encodeTime encodeDigit (timeDigits d)).
Proof.
  intros Hd. destruct (timeDigits_second_digit d Hd) as (x0 & x1 & x2 & x3 & E & _).
  rewrite E. cbn [encodeTime]. split; [reflexivity|].
  repeat constructor; apply byte_range.
Qed.

(** [dispTime] keeps the display variables well formed. *)
Lemma dispTime_keeps_display d s :
  0 <= d < CInt.ULONG_MOD ->
  LastTimeDisp s = [0; 0; 0; 0] \/ segment_buffer (LastTimeDisp s) ->
  Forall display_buffer (segments s) ->
  (LastTimeDisp (dispTime encodeDigit d s) = [0; 0; 0; 0]
   \/ segment_buffer (LastTimeDisp (dispTime encodeDigit d s)))
  /\ Forall display_buffer (segments (dispTime encodeDigit d s)).
Proof.
  intros Hd HL Hlog. unfold dispTime.
  destruct (negb (memcmp (timeDigits d) (LastTimeDisp s) 4 =? 0)).
  - cbn [LastTimeDisp segments set_LastTimeDisp setSegments]. split.
    + right. now apply encodeTime_segment_buffer.
    + constructor; [now apply display_buffer_encodeTime|exact Hlog].
  - split; assumption.
Qed.

(** The full run time always differs from what [LastTimeDisp] holds. *)
Lemma dispTime_full_duration s :
  LastTimeDisp s = [0; 0; 0; 0] \/ segment_buffer (LastTimeDisp s) ->
  dispTime encodeDigit (CInt.ulong MAX_DURATION_MSEC) s =
    set_LastTimeDisp (encodeTime encodeDigit [5; 0; 0; 0])
                     (setSegments (encodeTime encodeDigit [5; 0; 0; 0]) s).
Proof.
  intros HL.
  change (CInt.ulong MAX_DURATION_MSEC) with 3000000.
  rewrite dispTime_changed; [reflexivity|].
  destruct HL as [E|Hb].
  - rewrite E. vm_compute. discriminate.
  - apply digits_differ_from_segments; [ulia|exact Hb].
Qed.

Lemma display_invariant_setup boot : display_invariant (setup boot power_on).
Proof.
  destruct boot; constructor; cbn; try (left; reflexivity);
    try (intros H; discriminate H); constructor.
Qed.

Lemma display_invariant_isr s : display_invariant s -> display_invariant (takeStepISR s).
Proof.
  intros H. unfold takeStepISR. destruct (steppingOn s); [|exact H].
  destruct H as [H1 H2 H3]. constructor; assumption.
Qed.

Lemma display_invariant_loop s i :
  display_invariant s -> display_invariant (loop encodeDigit s i).
Proof.
  intros [HL HR Hlog].
  set (s1 := set_lastButtonReading (level_bool (button i)) s).
  assert (Hrange : forall x, 0 <= CInt.ulong x < CInt.ULONG_MOD) by apply ulong_range.
  destruct (Z.eq_dec (state s) (newState s i)) as [E|N].
  - destruct (Z.eq_dec (state s) ST_RUN) as [R|R].
    + rewrite loop_run_render by congruence.
      destruct (dispTime_writes_after_write encodeDigit
                  (CInt.ulong (stopTime s - myMillis s (millis2 i))) s1
                  (Hrange _) (HR R)) as [_ Hb].
      destruct (dispTime_keeps_display
                  (CInt.ulong (stopTime s - myMillis s (millis2 i))) s1
                  (Hrange _) HL Hlog) as [_ Hlog'].
      constructor; [right; exact Hb|intros _; exact Hb|exact Hlog'].
    + rewrite loop_steady by assumption.
      constructor; [exact HL|intros X; contradiction|exact Hlog].
  - destruct (Z.eq_dec (newState s i) ST_RUN) as [R|R].
    + rewrite loop_enter_run by congruence.
      rewrite enter_run_unfold. fold s1.
      rewrite (dispTime_full_duration s1 HL).
      set (e := set_state ST_RUN _).
      assert (He : segment_buffer (LastTimeDisp e)).
      { subst e. cbn. do 4 eexists. split; [reflexivity|apply byte_lor_128]. }
      assert (Hloge : Forall display_buffer (segments e)).
      { subst e. cbn [segments set_state set_stopTime digitalWrite set_steppingOn
                        set_LastTimeDisp setSegments].
        constructor; [|exact Hlog].
        apply (display_buffer_encodeTime 3000000). ulia. }
      match goal with |- display_invariant (dispTime _ ?d e) =>
        destruct (dispTime_writes_after_write encodeDigit d e (Hrange _) He)
          as [_ Hb];
        destruct (dispTime_keeps_display d e (Hrange _) (or_intror He) Hloge)
          as [_ Hlog']
      end.
      constructor; [right; exact Hb|intros _; exact Hb|exact Hlog'].
    + rewrite loop_enter_static by assumption.
      destruct display_buffer_glyphs as [Gi Gh].
      destruct (newState_range s i) as [X|[X|[X|X]]];
        [congruence| | |contradiction]; rewrite X;
        (constructor;
         [exact HL|intros Y; discriminate Y|constructor; assumption]).
Qed.

Lemma reachable_display_invariant boot s :
  reachable encodeDigit boot s -> display_invariant s.
Proof.
  induction 1 as [|s i _ IH|s _ IH].
  - apply display_invariant_setup.
  - now apply display_invariant_loop.
  - now apply display_invariant_isr.
Qed.

End DisplayPasses.

(** ** Digits and seconds *)

Lemma digitsSeconds_timeDigits d :
  0 <= d < 6000000 -> digitsSeconds (timeDigits d) = ceilSeconds d.
Proof.
  intros Hd. rewrite timeDigits_below by exact Hd. cbn [digitsSeconds].
  pose proof (Z.div_mod (ceilSeconds d) 60 ltac:(lia)).
  pose proof (Z.div_mod (ceilSeconds d / 60) 10 ltac:(lia)).
  pose proof (Z.div_mod (ceilSeconds d mod 60) 10 ltac:(lia)).
  lia.
Qed.

Lemma ceilSeconds_monotone d d' : 0 <= d <= d' -> ceilSeconds d <= ceilSeconds d'.
Proof.
  intros H. rewrite !ceilSeconds_round_up by lia.
  apply Z.div_le_mono; lia.
Qed.

Lemma timeDigits_reads_MMSS d :
  0 <= d <= 5999000 ->
  shows_MMSS (countdownMinute d) (countdownSecond d) (timeDigits d).
Proof.
  intros Hd. rewrite timeDigits_below by lia.
  unfold countdownMinute, countdownSecond.
  assert (Hc : 0 <= ceilSeconds d < 6000).
  { rewrite ceilSeconds_round_up by lia. split.
    - apply Z.div_pos; lia.
    - apply Z.div_lt_upper_bound; lia. }
  assert (Hm : 0 <= ceilSeconds d / 60 < 100)
    by (split; [apply Z.div_pos; lia | apply Z.div_lt_upper_bound; lia]).
  pose proof (Z.mod_pos_bound (ceilSeconds d) 60 ltac:(lia)) as Hs.
  pose proof (Z.div_mod (ceilSeconds d / 60) 10 ltac:(lia)).
  pose proof (Z.mod_pos_bound (ceilSeconds d / 60) 10 ltac:(lia)).
  pose proof (Z.div_mod (ceilSeconds d mod 60) 10 ltac:(lia)).
  pose proof (Z.mod_pos_bound (ceilSeconds d mod 60) 10 ltac:(lia)).
  cbn [shows_MMSS]. unfold two_digits, decimal_digit. lia.
Qed.

(** X8: below the 6,000,000 ms threshold the digits read back, as minutes
    times 60 plus seconds, exactly the duration rounded up to whole seconds,
    and a longer duration never reads as fewer seconds. *)
Theorem digits_read_back_rounded_seconds d d' :
  0 <= d <= d' -> d' < 6000000 ->
  digitsSeconds (timeDigits d) = ceilSeconds d
  /\ 1000 * (digitsSeconds (timeDigits d) - 1) < d <= 1000 * digitsSeconds (timeDigits d)
  /\ digitsSeconds (timeDigits d) <= digitsSeconds (timeDigits d').
Proof.
  intros Hd Hd'. rewrite !digitsSeconds_timeDigits by lia.
  split; [reflexivity|]. split.
  - apply ceilSeconds_bounds. lia.
  - now apply ceilSeconds_monotone.
Qed.

(** X9: below the threshold two durations give the same digits exactly when
    they round up to the same second; up to 5,999,000 ms every duration
    within a started second shows the same digits as the full second. *)
Theorem digits_change_with_the_second d d' :
  0 <= d < 6000000 -> 0 <= d' < 6000000 ->
  (timeDigits d = timeDigits d' <-> ceilSeconds d = ceilSeconds d')
  /\ (d <= 5999000 -> timeDigits d = timeDigits (1000 * ceilSeconds d)).
Proof.
  intros Hd Hd'.
  assert (Hiff : forall a b, 0 <= a < 6000000 -> 0 <= b < 6000000 + 1000 ->
            ceilSeconds a = ceilSeconds b -> b < 6000000 ->
            timeDigits a = timeDigits b).
  { intros a b Ha Hb E Hlt. rewrite !timeDigits_below by lia. now rewrite E. }
  split; [split|].
  - intros E. rewrite <- !digitsSeconds_timeDigits by lia. now rewrite E.
  - intros E. apply Hiff; lia.
  - intros Hle. pose proof (ceilSeconds_bounds d ltac:(lia)) as Hb.
    assert (Hc : ceilSeconds (1000 * ceilSeconds d) = ceilSeconds d).
    { unfold ceilSeconds at 1.
      rewrite Z.mul_comm, Z.mod_mul, Z.div_mul by lia. cbn. lia. }
    assert (ceilSeconds d < 6000).
    { rewrite ceilSeconds_round_up by lia. apply Z.div_lt_upper_bound; lia. }
    apply Hiff; [lia|lia|now rewrite Hc|lia].
Qed.

Lemma memcmp_four_eq a0 a1 a2 a3 b0 b1 b2 b3 :
  memcmp [a0; a1; a2; a3] [b0; b1; b2; b3] 4 = 0 ->
  [a0; a1; a2; a3] = [b0; b1; b2; b3].
Proof.
  cbn [memcmp].
  destruct (Z.eqb_spec a0 b0) as [->|_]; [|destruct (a0 <? b0); discriminate].
  destruct (Z.eqb_spec a1 b1) as [->|_]; [|destruct (a1 <? b1); discriminate].
  destruct (Z.eqb_spec a2 b2) as [->|_]; [|destruct (a2 <? b2); discriminate].
  destruct (Z.eqb_spec a3 b3) as [->|_]; [|destruct (a3 <? b3); discriminate].
  reflexivity.
Qed.

Section DisplayExtras.

Variable encodeDigit : Z -> Z.

(** X10: while [LastTimeDisp] still holds its initialiser, a call of
    [dispTime] with an [unsigned long] duration d writes the display exactly
    when 0 < d < 6,000,000, and then leaves segment bytes in [LastTimeDisp]. *)
Theorem first_dispTime_writes_iff d s :
  LastTimeDisp s = [0; 0; 0; 0] ->
  0 <= d < CInt.ULONG_MOD ->
  (writes (dispTime encodeDigit d s) = S (writes s) <-> 0 < d < 6000000)
  /\ (writes (dispTime encodeDigit d s) = writes s <-> d = 0 \/ 6000000 <= d)
  /\ (0 < d < 6000000 -> segment_buffer (LastTimeDisp (dispTime encodeDigit d s))).
Proof.
  intros HL Hd.
  assert (Hcount : forall (w : nat), S w <> w) by (intros w; lia).
  destruct (Z_lt_le_dec d 6000000) as [Hlt|Hge].
  - destruct (Z.eq_dec d 0) as [->|Hnz].
    + rewrite dispTime_unchanged by (rewrite HL; reflexivity).
      split; [|split].
      * split; intros H; [symmetry in H; now apply Hcount in H|lia].
      * split; intros H; [now left|reflexivity].
      * intros H. lia.
    + assert (Hw : memcmp (timeDigits d) (LastTimeDisp s) 4 <> 0).
      { rewrite HL. intros E.
        pose proof (digitsSeconds_timeDigits d ltac:(lia)) as Hs.
        pose proof (ceilSeconds_bounds d ltac:(lia)) as Hb.
        destruct (timeDigits_second_digit d Hd) as (x0 & x1 & x2 & x3 & Ed & _).
        rewrite Ed in E, Hs. apply memcmp_four_eq in E. rewrite E in Hs.
        cbn in Hs. lia. }
      rewrite (dispTime_changed encodeDigit d s Hw).
      unfold writes. cbn [segments set_LastTimeDisp setSegments length LastTimeDisp].
      split; [|split].
      * split; intros H; [lia|reflexivity].
      * split; intros H; [now apply Hcount in H|lia].
      * intros _. now apply encodeTime_segment_buffer.
  - rewrite dispTime_unchanged by (rewrite HL; now apply timeDigits_sentinel).
    split; [|split].
    + split; intros H; [symmetry in H; now apply Hcount in H|lia].
    + split; intros H; [now right|reflexivity].
    + intros H. lia.
Qed.

Lemma run_pass_segments boot s i :
  reachable encodeDigit boot s ->
  state s = ST_RUN -> state (loop encodeDigit s i) = ST_RUN ->
  segments (loop encodeDigit s i) =
    encodeTime encodeDigit
      (timeDigits (CInt.ulong (stopTime s - myMillis s (millis2 i))))
    :: segments s
  /\ LastTimeDisp (loop encodeDigit s i) =
       encodeTime encodeDigit
         (timeDigits (CInt.ulong (stopTime s - myMillis s (millis2 i)))).
Proof.
  intros Hr Hs Hs'.
  destruct (loop_fields encodeDigit s i) as (L1 & _). rewrite L1 in Hs'.
  destruct (reachable_display_invariant encodeDigit boot s Hr) as [_ HR _].
  rewrite loop_run_render by assumption.
  rewrite dispTime_changed.
  - split; reflexivity.
  - apply digits_differ_from_segments; [apply ulong_range|exact (HR Hs)].
Qed.

(** X11: once in Run, every pass that stays in Run issues exactly one
    display write, whether or not the digits changed, and [LastTimeDisp]
    holds the segment bytes just written. *)
Theorem run_pass_rewrites_display boot s i :
  reachable encodeDigit boot s ->
  state s = ST_RUN -> state (loop encodeDigit s i) = ST_RUN ->
  writes (loop encodeDigit s i) = S (writes s)
  /\ shown (loop encodeDigit s i) = Some (LastTimeDisp (loop encodeDigit s i)).
Proof.
  intros Hr Hs Hs'.
  destruct (run_pass_segments boot s i Hr Hs Hs') as [E1 E2].
  unfold writes, shown. rewrite E1, E2. split; reflexivity.
Qed.

(** X12: a pass that stays in Run while the clock read for rendering is
    still before the deadline, by r <= 5,999,000 ms, leaves on the display
    the encoding of digits that read r rounded up to whole seconds as
    minutes and seconds. *)
Theorem run_pass_shows_remaining boot s i :
  reachable encodeDigit boot s ->
  state s = ST_RUN -> state (loop encodeDigit s i) = ST_RUN ->
  0 <= stopTime s - myMillis s (millis2 i) <= 5999000 ->
  shown (loop encodeDigit s i) =
    Some (encodeTime encodeDigit (timeDigits (stopTime s - myMillis s (millis2 i))))
  /\ shows_MMSS (countdownMinute (stopTime s - myMillis s (millis2 i)))
                (countdownSecond (stopTime s - myMillis s (millis2 i)))
                (timeDigits (stopTime s - myMillis s (millis2 i))).
Proof.
  intros Hr Hs Hs' Hrem.
  destruct (run_pass_segments boot s i Hr Hs Hs') as [E1 _].
  unfold shown. rewrite E1. rewrite ulong_small by ulia.
  split; [reflexivity|]. now apply timeDigits_reads_MMSS.
Qed.

(** X13: a pass that stays in Run (its check read a time before the
    deadline) but whose rendering reads a time past the deadline, by at most
    2^32 - 6,000,000 ms, leaves 00:00 on the display. *)
Theorem run_pass_past_deadline_shows_zero boot s i :
  reachable encodeDigit boot s ->
  state s = ST_RUN -> state (loop encodeDigit s i) = ST_RUN ->
  0 <= stopTime s < myMillis s (millis2 i) ->
  myMillis s (millis2 i) - stopTime s <= CInt.ULONG_MOD - 6000000 ->
  shown (loop encodeDigit s i) = Some (encodeTime encodeDigit [0; 0; 0; 0]).
Proof.
  intros Hr Hs Hs' Hpast Hfar.
  destruct (run_pass_segments boot s i Hr Hs Hs') as [E1 _].
  unfold shown. rewrite E1. cbn [hd_error].
  assert (Ew : CInt.ulong (stopTime s - myMillis s (millis2 i))
               = stopTime s - myMillis s (millis2 i) + CInt.ULONG_MOD).
  { unfold CInt.ulong. symmetry.
    pose proof (ulong_range (millis2 i * CInt.ulong (debugTimeMult s))) as Hm.
    fold (myMillis s (millis2 i)) in Hm.
    apply Z.mod_unique_pos with (q := -1); ulia. }
  rewrite Ew, timeDigits_sentinel by ulia. reflexivity.
Qed.

(** X14: the pass that enters Run from Hold issues two display writes: first
    the full run time 50:00 (digits 5,0,0,0), then the remaining time read
    right after arming. *)
Theorem run_entry_writes_full_time_then_remaining boot s i :
  reachable encodeDigit boot s ->
  state s = ST_HOLD -> buttonWasPressed s i = true ->
  timeDigits MAX_DURATION_MSEC = [5; 0; 0; 0]
  /\ segments (loop encodeDigit s i) =
       encodeTime encodeDigit
         (timeDigits
            (CInt.ulong
               (CInt.ulong (myMillis s (millis1 i) + CInt.ulong MAX_DURATION_MSEC)
                - myMillis s (millis2 i))))
       :: encodeTime encodeDigit [5; 0; 0; 0] :: segments s.
Proof.
  intros Hr Hs Hp. split; [reflexivity|].
  destruct (reachable_display_invariant encodeDigit boot s Hr) as [HL _ _].
  assert (Hn : newState s i = ST_RUN).
  { rewrite newState_cases, Hp, Hs. reflexivity. }
  rewrite loop_enter_run; [|rewrite Hs; discriminate|exact Hn].
  rewrite enter_run_unfold.
  rewrite (dispTime_full_duration encodeDigit
             (set_lastButtonReading (level_bool (button i)) s) HL).
  rewrite dispTime_changed; [reflexivity|].
  apply digits_differ_from_segments; [apply ulong_range|].
  cbn. do 4 eexists. split; [reflexivity|apply byte_lor_128].
Qed.

(** X15: every buffer the sketch has handed to the display is four bytes,
    each between 0 and 255, and [LastTimeDisp] always has four entries. *)
Theorem display_buffers_are_four_bytes boot s :
  reachable encodeDigit boot s ->
  Forall display_buffer (segments s) /\ length (LastTimeDisp s) = 4%nat.
Proof.
  intros Hr.
  destruct (reachable_display_invariant encodeDigit boot s Hr) as [HL _ Hlog].
  split; [exact Hlog|].
  destruct HL as [E|(b0 & b1 & b2 & b3 & E & _)]; rewrite E; reflexivity.
Qed.

End DisplayExtras.

(** ** Outputs, interrupt and clock *)

Section Peripherals.

Variable encodeDigit : Z -> Z.

(** A pass writes no pin but the enable pin, and leaves brightness and timer
    alone. *)
Lemma loop_other_outputs s i q :
  q <> STEPPER_ENABLE_PIN ->
  pin (loop encodeDigit s i) q = pin s q
  /\ brightness (loop encodeDigit s i) = brightness s
  /\ timer1 (loop encodeDigit s i) = timer1 s.
Proof.
  intros Hq. apply Z.eqb_neq in Hq.
  unfold loop, enter, dispTime.
  repeat match goal with
         | |- context [if ?c then _ else _] => destruct c
         end;
    cbn; rewrite ?Hq; repeat split; reflexivity.
Qed.

Lemma peripherals_set_reachable boot s :
  reachable encodeDigit boot s -> peripherals_set boot s.
Proof.
  induction 1 as [|s i _ IH|s _ IH].
  - destruct boot; constructor; reflexivity.
  - destruct IH as [P1 P2 P3 P4].
    destruct (loop_other_outputs s i STEPPER_STEP_PIN ltac:(discriminate))
      as (Q1 & Q3 & Q4).
    destruct (loop_other_outputs s i STEPPER_DIR_PIN ltac:(discriminate))
      as (Q2 & _).
    constructor; congruence.
  - destruct IH as [P1 P2 P3 P4]. unfold takeStepISR.
    destruct (steppingOn s); constructor; cbn; assumption || reflexivity.
Qed.

(** X16: what [setup] programs is never changed afterwards: in every
    reachable state the direction pin and the step pin are low, the
    brightness is 0 and the timer period is 100093 us divided by the
    multiplier, that is 1668 us in the 60x mode and 100093 us otherwise. *)
Theorem outputs_fixed_by_setup boot s :
  reachable encodeDigit boot s ->
  pin s STEPPER_DIR_PIN = LOW
  /\ pin s STEPPER_STEP_PIN = LOW
  /\ brightness s = 0
  /\ timer1 s = Some (if level_int boot =? 0 then 1668 else 100093).
Proof.
  intros Hr. destruct (peripherals_set_reachable boot s Hr) as [P1 P2 P3 P4].
  repeat split; try assumption.
  rewrite P4. destruct boot; reflexivity.
Qed.

(** X17: between passes, the timer interrupt does nothing unless the drive
    state is Run; in Run it raises the step pin and lowers it again, and in
    both cases every output latch is afterwards as it was before. *)
Theorem interrupt_pulses_only_in_run boot s :
  reachable encodeDigit boot s ->
  (state s <> ST_RUN -> takeStepISR s = s)
  /\ (state s = ST_RUN ->
      takeStepISR s
      = digitalWrite STEPPER_STEP_PIN LOW (digitalWrite STEPPER_STEP_PIN HIGH s)
      /\ pin (digitalWrite STEPPER_STEP_PIN HIGH s) STEPPER_STEP_PIN = HIGH)
  /\ (forall q, pin (takeStepISR s) q = pin s q).
Proof.
  intros Hr.
  pose proof (inv_stepping boot s (reachable_invariant encodeDigit boot s Hr))
    as [H1 H2].
  destruct (peripherals_set_reachable boot s Hr) as [P1 _ _ _].
  unfold takeStepISR. split; [|split].
  - intros N. destruct (steppingOn s); [|reflexivity].
    contradiction (N (H1 eq_refl)).
  - intros E. rewrite (H2 E). split; reflexivity.
  - intros q. destruct (steppingOn s); [|reflexivity].
    cbn. destruct (Z.eqb_spec q STEPPER_STEP_PIN) as [->|_]; [|reflexivity].
    symmetry. exact P1.
Qed.

(** X18: a pass writes the deadline only when it enters Run: if [stopTime]
    changed, the state was not Run before, is Run after, and the deadline is
    the time read at arming plus 3,000,000 in [unsigned long]. *)
Theorem deadline_written_on_run_entry_only s i :
  stopTime (loop encodeDigit s i) <> stopTime s ->
  state s <> ST_RUN
  /\ state (loop encodeDigit s i) = ST_RUN
  /\ stopTime (loop encodeDigit s i)
     = CInt.ulong (myMillis s (millis1 i) + CInt.ulong MAX_DURATION_MSEC).
Proof.
  destruct (loop_fields encodeDigit s i) as (L1 & _ & _ & _ & _ & L6).
  destruct (enter_fields encodeDigit (newState s i) i s) as (_ & _ & _ & _ & _ & F6).
  rewrite L1, L6, F6.
  destruct (Z.eqb_spec (state s) (newState s i)) as [E|N];
    [intros X; now contradiction X|].
  destruct (newState s i =? ST_IDLE); [intros X; now contradiction X|].
  destruct (newState s i =? ST_HOLD); [intros X; now contradiction X|].
  destruct (Z.eqb_spec (newState s i) ST_RUN) as [R|_];
    [|intros X; now contradiction X].
  intros _. repeat split; congruence.
Qed.

(** X19: measured on the raw clock, a Run armed at raw time r0 (deadline
    r0 times the multiplier plus 3,000,000, without overflow) ends, absent a
    press-edge, on the first pass whose check reads a raw time of at least
    r0 + 3,000,000 / multiplier: 50,000 ms later in the 60x mode, 3,000,000
    ms later otherwise. *)
Theorem run_length_on_raw_clock boot s i r0 :
  reachable encodeDigit boot s ->
  state s = ST_RUN ->
  stopTime s = r0 * bootMultiplier boot + MAX_DURATION_MSEC ->
  buttonWasPressed s i = false ->
  0 <= millis1 i ->
  millis1 i * bootMultiplier boot < CInt.ULONG_MOD ->
  (state (loop encodeDigit s i) = ST_IDLE
   <-> r0 + MAX_DURATION_MSEC / bootMultiplier boot <= millis1 i)
  /\ (state (loop encodeDigit s i) = ST_RUN
      <-> millis1 i < r0 + MAX_DURATION_MSEC / bootMultiplier boot).
Proof.
  intros Hr Hs Hstop Hp Hm Hov.
  pose proof (inv_mult boot s (reachable_invariant encodeDigit boot s Hr)) as E.
  assert (Ht : myMillis s (millis1 i) = millis1 i * bootMultiplier boot).
  { rewrite myMillis_exact; rewrite E; [reflexivity|].
    pose proof (bootMultiplier_pos boot). nia. }
  destruct (loop_fields encodeDigit s i) as (L1 & _).
  rewrite L1, newState_cases, Hs, Hp, Ht, Hstop.
  cbn [Z.eqb ST_RUN ST_INIT Pos.eqb andb].
  unfold MAX_DURATION_MSEC.
  destruct (Z.geb_spec (millis1 i * bootMultiplier boot)
                       (r0 * bootMultiplier boot + 3000000)) as [G|G];
    destruct boot; cbn [bootMultiplier] in *;
    change (3000000 / 60) with 50000; change (3000000 / 1) with 3000000;
    (split; split; intros H; try reflexivity; try discriminate H; lia).
Qed.

End Peripherals.

(** * Sample runs of the further properties *)

Lemma debug_run_reachable : reachable tm1637_encodeDigit LOW debug_run.
Proof. apply reach_loop. apply run_reachable. Qed.

Lemma idle_hold_steady_witness :
  loop tm1637_encodeDigit idle_released (mkInput HIGH 10 10)
  = set_lastButtonReading true idle_released.
Proof.
  apply (idle_hold_steady tm1637_encodeDigit idle_released (mkInput HIGH 10 10)).
  - left. reflexivity.
  - reflexivity.
Defined.

Lemma state_change_has_cause_witness :
  state idle_released = ST_INIT
  \/ buttonWasPressed idle_released (mkInput LOW 10 10) = true
  \/ (state idle_released = ST_RUN
      /\ stopTime idle_released <= myMillis idle_released 10).
Proof.
  apply (state_change_has_cause tm1637_encodeDigit idle_released (mkInput LOW 10 10)).
  vm_compute. discriminate.
Defined.

Lemma run_exit_condition_witness :
  state (loop tm1637_encodeDigit debug_run (mkInput HIGH 50100 50100)) = ST_IDLE
  <-> buttonWasPressed debug_run (mkInput HIGH 50100 50100) = true
      \/ stopTime debug_run <= myMillis debug_run 50100.
Proof.
  apply (run_exit_condition tm1637_encodeDigit debug_run (mkInput HIGH 50100 50100)).
  reflexivity.
Defined.

Lemma loop_transition_graph_witness :
  state (loop tm1637_encodeDigit idle_released (mkInput LOW 10 10)) <> ST_INIT.
Proof.
  apply (loop_transition_graph tm1637_encodeDigit HIGH idle_released
           (mkInput LOW 10 10)).
  apply run_reachable.
Defined.

Lemma static_state_entry_shows_glyph_witness :
  segments (loop tm1637_encodeDigit idle_released (mkInput LOW 10 10))
  = HoldDisp :: segments idle_released.
Proof.
  destruct (static_state_entry_shows_glyph tm1637_encodeDigit idle_released
              (mkInput LOW 10 10)) as [_ H].
  - vm_compute. discriminate.
  - apply H. reflexivity.
Defined.

Lemma held_button_counts_once_witness :
  buttonWasPressed (passes tm1637_encodeDigit idle_released held_down 3)
                   (held_down 3%nat) = false
  /\ state (passes tm1637_encodeDigit idle_released held_down 3) = ST_HOLD.
Proof.
  destruct (held_button_counts_once tm1637_encodeDigit idle_released held_down)
    as [H1 H2].
  - intros k. reflexivity.
  - split.
    + apply H1. repeat constructor.
    + apply H2; [reflexivity|reflexivity|repeat constructor].
Defined.

Lemma digits_read_back_rounded_seconds_witness :
  digitsSeconds (timeDigits 2999001) = ceilSeconds 2999001
  /\ 1000 * (digitsSeconds (timeDigits 2999001) - 1) < 2999001
     <= 1000 * digitsSeconds (timeDigits 2999001)
  /\ digitsSeconds (timeDigits 2999001) <= digitsSeconds (timeDigits 3000000).
Proof.
  apply (digits_read_back_rounded_seconds 2999001 3000000); lia.
Defined.

Lemma digits_change_with_the_second_witness :
  timeDigits 2999001 = timeDigits 3000000
  <-> ceilSeconds 2999001 = ceilSeconds 3000000.
Proof.
  apply (digits_change_with_the_second 2999001 3000000); lia.
Defined.

Lemma first_dispTime_writes_iff_witness :
  writes (dispTime tm1637_encodeDigit 1000 power_on) = S (writes power_on)
  <-> 0 < 1000 < 6000000.
Proof.
  apply (first_dispTime_writes_iff tm1637_encodeDigit 1000 power_on).
  - reflexivity.
  - vm_compute. split; [discriminate|reflexivity].
Defined.

Lemma run_pass_rewrites_display_witness :
  writes (loop tm1637_encodeDigit debug_run (mkInput HIGH 110 110))
  = S (writes debug_run).
Proof.
  apply (run_pass_rewrites_display tm1637_encodeDigit LOW debug_run
           (mkInput HIGH 110 110)).
  - exact debug_run_reachable.
  - reflexivity.
  - reflexivity.
Defined.

Lemma run_pass_shows_remaining_witness :
  shown (loop tm1637_encodeDigit debug_run (mkInput HIGH 110 110))
  = Some (encodeTime tm1637_encodeDigit
            (timeDigits (stopTime debug_run - myMillis debug_run 110))).
Proof.
  apply (run_pass_shows_remaining tm1637_encodeDigit LOW debug_run
           (mkInput HIGH 110 110)).
  - exact debug_run_reachable.
  - reflexivity.
  - reflexivity.
  - vm_compute. split; discriminate.
Defined.

Lemma run_pass_past_deadline_shows_zero_witness :
  shown (loop tm1637_encodeDigit debug_run debug_straddle)
  = Some (encodeTime tm1637_encodeDigit [0; 0; 0; 0]).
Proof.
  apply (run_pass_past_deadline_shows_zero tm1637_encodeDigit LOW debug_run
           debug_straddle).
  - exact debug_run_reachable.
  - reflexivity.
  - reflexivity.
  - vm_compute. split; [discriminate|reflexivity].
  - vm_compute. discriminate.
Defined.

Lemma run_entry_writes_full_time_then_remaining_witness :
  timeDigits MAX_DURATION_MSEC = [5; 0; 0; 0]
  /\ segments (loop tm1637_encodeDigit wrap_hold debug_press)
     = encodeTime tm1637_encodeDigit
         (timeDigits
            (CInt.ulong
               (CInt.ulong (myMillis wrap_hold (millis1 debug_press)
                            + CInt.ulong MAX_DURATION_MSEC)
                - myMillis wrap_hold (millis2 debug_press))))
       :: encodeTime tm1637_encodeDigit [5; 0; 0; 0] :: segments wrap_hold.
Proof.
  apply (run_entry_writes_full_time_then_remaining tm1637_encodeDigit LOW
           wrap_hold debug_press).
  - apply run_reachable.
  - reflexivity.
  - reflexivity.
Defined.

Lemma display_buffers_are_four_bytes_witness :
  Forall display_buffer (segments debug_run)
  /\ length (LastTimeDisp debug_run) = 4%nat.
Proof.
  apply (display_buffers_are_four_bytes tm1637_encodeDigit LOW debug_run).
  exact debug_run_reachable.
Defined.

Lemma outputs_fixed_by_setup_witness :
  pin debug_run STEPPER_DIR_PIN = LOW
  /\ pin debug_run STEPPER_STEP_PIN = LOW
  /\ brightness debug_run = 0
  /\ timer1 debug_run = Some 1668.
Proof.
  apply (outputs_fixed_by_setup tm1637_encodeDigit LOW debug_run).
  exact debug_run_reachable.
Defined.

Lemma interrupt_pulses_only_in_run_witness :
  takeStepISR debug_run
  = digitalWrite STEPPER_STEP_PIN LOW (digitalWrite STEPPER_STEP_PIN HIGH debug_run)
  /\ pin (takeStepISR debug_run) STEPPER_STEP_PIN = pin debug_run STEPPER_STEP_PIN.
Proof.
  destruct (interrupt_pulses_only_in_run tm1637_encodeDigit LOW debug_run
              debug_run_reachable) as (_ & H2 & H3).
  split.
  - apply H2. reflexivity.
  - apply H3.
Defined.

Lemma deadline_written_on_run_entry_only_witness :
  state wrap_hold <> ST_RUN
  /\ state (loop tm1637_encodeDigit wrap_hold debug_press) = ST_RUN
  /\ stopTime (loop tm1637_encodeDigit wrap_hold debug_press)
     = CInt.ulong (myMillis wrap_hold (millis1 debug_press)
                   + CInt.ulong MAX_DURATION_MSEC).
Proof.
  apply (deadline_written_on_run_entry_only tm1637_encodeDigit wrap_hold
           debug_press).
  vm_compute. discriminate.
Defined.

Lemma run_length_on_raw_clock_witness :
  state (loop tm1637_encodeDigit debug_run (mkInput HIGH 50100 50100)) = ST_IDLE
  <-> 100 + MAX_DURATION_MSEC / bootMultiplier LOW <= 50100.
Proof.
  apply (run_length_on_raw_clock tm1637_encodeDigit LOW debug_run
           (mkInput HIGH 50100 50100) 100).
  - exact debug_run_reachable.
  - reflexivity.
  - reflexivity.
  - reflexivity.
  - cbn. lia.
  - vm_compute. reflexivity.
Defined.
